(** * The Sparkify ETL job ([etl.py]) as a shallow embedding

    The job reads two JSON datasets (song metadata, user activity logs),
    derives five tables with dataframe operations and writes them as
    parquet directories.  Dataframes are modelled as lists of rows, a row
    being an association list from column names to values; the storage the
    job reads and writes is a finite map from paths to stored tables, and
    the job itself runs in a small state-and-exception monad over it.

    Engine conventions fixed here (the script pins hadoop-aws 2.7.5, the
    Spark 2.x line):
    - [date_format] follows java.text.SimpleDateFormat with Locale.US
      (weeks start on Sunday, one day suffices for a first week);
    - the zone of the driver and of the session is one fixed offset east
      of UTC, [tz], in seconds (no daylight saving transitions);
    - calendars are proleptic Gregorian;
    - column names are resolved by exact match; statements that assert
      a complete run say which datasets they are about;
    - the Python side is CPython 3.6 or later on a platform with a 64-bit
      [time_t]; floats are IEEE 754 binary64, computed with the standard
      library's [SpecFloat]. *)

From Stdlib Require Import ZArith String Ascii List Lia Bool DecimalString Permutation Sorted.
From Stdlib Require Import Floats.SpecFloat.
From stdpp Require Import base decidable option list strings gmap fin_maps sorting.

Open Scope string_scope.
Open Scope list_scope.
Open Scope Z_scope.

(** ** Values, rows, dataframes *)

(** A cell of a dataframe.  [VDouble m e] is the finite binary64 number
    m * 2^e; [VTimestamp us] is an instant, microseconds since the epoch. *)
Inductive Value : Type :=
| VNull
| VStr (s : string)
| VLong (n : Z)
| VDouble (m e : Z)
| VTimestamp (us : Z).

#[global] Instance Value_eq_dec : EqDecision Value.
Proof. solve_decision. Defined.

Definition Row : Type := list (string * Value).
Definition DataFrame : Type := list Row.

(** What a failing step raises.  Every exception of the job is uncaught. *)
Inductive Error : Type :=
| TypeError (msg : string)          (* Python: operand of the wrong type in the UDF *)
| ValueError (msg : string)         (* Python: year out of range in fromtimestamp *)
| OverflowError (msg : string)      (* Python: seconds beyond the platform's time_t *)
| OSError (msg : string)            (* Python: the C library refused the instant *)
| AttributeError (msg : string)     (* Python: [df.name] for a column the frame lacks *)
| Unresolved (column : string)      (* engine: AnalysisException, no such column *)
| Ambiguous (column : string)       (* engine: AnalysisException, two such columns *)
| PathNotFound (path : string)      (* engine: load of a path that matches nothing *)
| PathAlreadyExists (path : string) (* engine: write to an existing path *).

Inductive Result (A : Type) : Type :=
| Ok (a : A)
| Err (e : Error).
Arguments Ok {A} a.
Arguments Err {A} e.

Definition is_ok {A} (r : Result A) : bool :=
  match r with Ok _ => true | Err _ => false end.

(** Evaluates a fallible function over a list, left to right; the first
    failure is the failure of the whole. *)
Fixpoint mapM {A B} (f : A -> Result B) (l : list A) : Result (list B) :=
  match l with
  | [] => Ok []
  | x :: l' =>
      match f x with
      | Err e => Err e
      | Ok y =>
          match mapM f l' with
          | Err e => Err e
          | Ok ys => Ok (y :: ys)
          end
      end
  end.

(** Column reference by name.  A field absent from a JSON record reads as
    null (the dataset's schema has the column, the record has no value). *)
Fixpoint col (c : string) (r : Row) : Value :=
  match r with
  | [] => VNull
  | (k, v) :: r' => if String.eqb k c then v else col c r'
  end.

Definition is_null (v : Value) : bool :=
  match v with VNull => true | _ => false end.

(** SQL equality: null when either side is null. *)
Definition sql_eq (a b : Value) : option bool :=
  match a, b with
  | VNull, _ | _, VNull => None
  | _, _ => Some (bool_decide (a = b))
  end.

(** A predicate holds of a row only when it evaluates to true (null and
    false both reject the row). *)
Definition holds (p : option bool) : bool :=
  match p with Some true => true | _ => false end.

(** [df.filter(cond)] *)
Definition filter_rows (cond : Row -> option bool) (df : DataFrame) : DataFrame :=
  List.filter (fun r => holds (cond r)) df.

(** A named output expression of [select]: [expr.alias(name)]. *)
Definition NamedExpr : Type := (string * (Row -> Value))%type.

Definition alias (e : Row -> Value) (name : string) : NamedExpr := (name, e).

(** A bare column name in a [select] list. *)
Definition named (c : string) : NamedExpr := (c, col c).

Definition eval_row (es : list NamedExpr) (r : Row) : Row :=
  List.map (fun e => (fst e, snd e r)) es.

(** [df.select(exprs)] *)
Definition select (es : list NamedExpr) (df : DataFrame) : DataFrame :=
  List.map (eval_row es) df.

(** The values of the columns [subset] in a row: the grouping key of
    [dropDuplicates]. *)
Definition key_of (subset : list string) (r : Row) : list Value :=
  List.map (fun c => col c r) subset.

(** [df.dropDuplicates(subset)]: one row survives per key; nulls group
    together.  The engine keeps whichever row of a group it meets first;
    here that is the first in list order, and every statement below holds
    for all orders of the input. *)
Fixpoint dedup_from (subset : list string) (seen : list (list Value))
    (df : DataFrame) : DataFrame :=
  match df with
  | [] => []
  | r :: df' =>
      if bool_decide (key_of subset r ∈ seen)
      then dedup_from subset seen df'
      else r :: dedup_from subset (key_of subset r :: seen) df'
  end.

Definition dropDuplicates (subset : list string) (df : DataFrame) : DataFrame :=
  dedup_from subset [] df.

(** [df.dropna(subset=...)] with the default [how='any']: a row goes when
    any column of the subset is null.  A bare string is one column. *)
Definition dropna (subset : list string) (df : DataFrame) : DataFrame :=
  List.filter (fun r => negb (existsb (fun c => is_null (col c r)) subset)) df.

(** [df.withColumn(name, e)]: replaces the column when it exists, appends
    it otherwise. *)
Fixpoint set_col (name : string) (v : Value) (r : Row) : Row :=
  match r with
  | [] => [(name, v)]
  | (k, x) :: r' =>
      if String.eqb k name then (k, v) :: r' else (k, x) :: set_col name v r'
  end.

(** [df.withColumnRenamed(existing, new)] *)
Definition rename_col (existing new : string) (r : Row) : Row :=
  List.map (fun kv => if String.eqb (fst kv) existing then (new, snd kv) else kv) r.

Definition withColumnRenamed (existing new : string) (df : DataFrame) : DataFrame :=
  List.map (rename_col existing new) df.

(** [left.join(right, cond)]: inner join; a joined row carries the columns
    of the left row followed by those of the right row. *)
Definition join (left right : DataFrame) (cond : Row -> Row -> option bool) : DataFrame :=
  List.flat_map
    (fun l => List.map (fun r => l ++ r) (List.filter (fun r => holds (cond l r)) right))
    left.

(** [df.withColumn(name, udf(col))]: a Python UDF is evaluated on every
    row; an exception raised for one row fails the action that computes
    the column. *)
Definition withColumn (name : string) (e : Row -> Result Value) (df : DataFrame)
  : Result DataFrame :=
  mapM (fun r => match e r with
                 | Ok v => Ok (set_col name v r)
                 | Err x => Err x
                 end) df.

(** ** Columns of a dataframe and their resolution *)

(** [df.columns] of a loaded dataset: the schema the reader infers from
    the records, one column for every field name that occurs in some
    record.  A dataset without records has no columns. *)
Definition columns (df : DataFrame) : list string :=
  remove_dups (concat (List.map (List.map fst) df)).

Definition occurrences (c : string) (cols : list string) : nat :=
  length (List.filter (String.eqb c) cols).

(** Resolution of a column name among the columns of a frame.  The
    engine analyses a transformation when it is called, and an
    AnalysisException is raised at that call for a name that no column
    has or that two columns have.  Names are compared exactly. *)
Definition resolve (cols : list string) (c : string) : Result unit :=
  match occurrences c cols with
  | O => Err (Unresolved c)
  | 1%nat => Ok tt
  | _ => Err (Ambiguous c)
  end.

Fixpoint resolve_all (cols cs : list string) : Result unit :=
  match cs with
  | [] => Ok tt
  | c :: cs' =>
      match resolve cols c with
      | Err e => Err e
      | Ok _ => resolve_all cols cs'
      end
  end.

(** [df.name]: Python looks the name up in [df.columns] before the
    engine resolves it. *)
Definition getattr (cols : list string) (c : string) : Result unit :=
  if bool_decide (c ∈ cols) then resolve cols c
  else Err (AttributeError ("'DataFrame' object has no attribute '" ++ c ++ "'")).

(** The columns after [withColumnRenamed(existing, new)]. *)
Definition rename_column (existing new : string) (cols : list string) : list string :=
  List.map (fun k => if String.eqb k existing then new else k) cols.

(** ** Calendar arithmetic *)

Module Calendar.

Definition is_leap (y : Z) : bool :=
  ((y mod 4 =? 0) && negb (y mod 100 =? 0)) || (y mod 400 =? 0).

(** Days since 1970-01-01 of a civil date (proleptic Gregorian). *)
Definition days_from_civil (y m d : Z) : Z :=
  let y := if m <=? 2 then y - 1 else y in
  let era := y / 400 in
  let yoe := y - era * 400 in
  let mp := if m >? 2 then m - 3 else m + 9 in
  let doy := (153 * mp + 2) / 5 + d - 1 in
  let doe := yoe * 365 + yoe / 4 - yoe / 100 + doy in
  era * 146097 + doe - 719468.

(** Civil date (year, month 1..12, day 1..31) of a day number. *)
Definition civil_from_days (z : Z) : Z * Z * Z :=
  let z := z + 719468 in
  let era := z / 146097 in
  let doe := z - era * 146097 in
  let yoe := (doe - doe / 1460 + doe / 36524 - doe / 146096) / 365 in
  let y := yoe + era * 400 in
  let doy := doe - (365 * yoe + yoe / 4 - yoe / 100) in
  let mp := (5 * doy + 2) / 153 in
  let d := doy - (153 * mp + 2) / 5 + 1 in
  let m := if mp <? 10 then mp + 3 else mp - 9 in
  (if m <=? 2 then y + 1 else y, m, d).

(** Day of week of a day number, 0 = Sunday ... 6 = Saturday
    (1970-01-01 was a Thursday). *)
Definition day_of_week0 (day : Z) : Z := (day + 4) mod 7.

(** The last day on or before [day] that falls on [dow]
    (1 = Sunday ... 7 = Saturday). *)
Definition on_or_before (day dow : Z) : Z :=
  day - (day_of_week0 day - (dow - 1)) mod 7.

(** Week conventions of Locale.US. *)
Definition first_day_of_week : Z := 1.
Definition minimal_days_in_first_week : Z := 1.

(** Number of the week holding [date] in the period that starts on
    [day1] (java.util.GregorianCalendar.getWeekNumber). *)
Definition getWeekNumber (day1 date : Z) : Z :=
  let day1st := on_or_before (day1 + 6) first_day_of_week in
  let ndays := day1st - day1 in
  let day1st := if ndays >=? minimal_days_in_first_week then day1st - 7 else day1st in
  (date - day1st) / 7 + 1.

(** The calendar fields of a local instant. *)
Record Fields : Type := mkFields {
  f_year : Z;
  f_month : Z;            (* 1..12 *)
  f_day : Z;              (* day of month, 1..31 *)
  f_hour : Z;             (* 0..23 *)
  f_minute : Z;
  f_second : Z;
  f_milli : Z;
  f_day_of_year : Z;      (* 1..366 *)
  f_day_of_week : Z;      (* 1 = Sunday ... 7 = Saturday *)
  f_week_of_year : Z;
  f_week_of_month : Z;
  f_day_of_week_in_month : Z
}.

Definition week_of_year (y jan1 date : Z) : Z :=
  let w := getWeekNumber jan1 date in
  if w =? 0 then
    let dec31 := jan1 - 1 in
    let prev_jan1 := if is_leap (y - 1) then jan1 - 366 else jan1 - 365 in
    getWeekNumber prev_jan1 dec31
  else if w >=? 52 then
    let next_jan1 := if is_leap y then jan1 + 366 else jan1 + 365 in
    let next_jan1st := on_or_before (next_jan1 + 6) first_day_of_week in
    let ndays := next_jan1st - next_jan1 in
    if (ndays >=? minimal_days_in_first_week) && (date >=? next_jan1st - 7)
    then 1 else w
  else w.

(** Fields of the instant [ms] (milliseconds since the epoch) in the zone
    [tz] seconds east of UTC. *)
Definition fields_of_millis (tz ms : Z) : Fields :=
  let local := ms + tz * 1000 in
  let day := local / 86400000 in
  let ms_of_day := local mod 86400000 in
  let '(y, m, d) := civil_from_days day in
  let jan1 := days_from_civil y 1 1 in
  let month1 := days_from_civil y m 1 in
  {| f_year := y;
     f_month := m;
     f_day := d;
     f_hour := ms_of_day / 3600000;
     f_minute := (ms_of_day / 60000) mod 60;
     f_second := (ms_of_day / 1000) mod 60;
     f_milli := ms_of_day mod 1000;
     f_day_of_year := day - jan1 + 1;
     f_day_of_week := day_of_week0 day + 1;
     f_week_of_year := week_of_year y jan1 day;
     f_week_of_month := getWeekNumber month1 day;
     f_day_of_week_in_month := (d - 1) / 7 + 1 |}.

End Calendar.

(** ** The Python side of the timestamp UDF *)

Module Python.

(** A naive [datetime.datetime] (no tzinfo). *)
Record datetime : Type := mkDatetime {
  year : Z;
  month : Z;
  day : Z;
  hour : Z;
  minute : Z;
  second : Z;
  microsecond : Z
}.

(** [round(n / d)] for [d > 0], ties to even. *)
Definition round_half_even_div (n d : Z) : Z :=
  let q := n / d in
  let r := n mod d in
  if 2 * r <? d then q
  else if 2 * r >? d then q + 1
  else if Z.even q then q else q + 1.

(** [repr] of an integer. *)
Definition repr_int (n : Z) : string := NilZero.string_of_int (Z.to_int n).

(** A Python [float]: an IEEE 754 binary64 number. *)
Definition float : Type := spec_float.

(** [float(n)] for an integer, and the float m * 2^e, both rounded to
    nearest, ties to even. *)
Definition float_of_int (n : Z) : float := binary_normalize 53 1024 n 0 false.
Definition float_of_double (m e : Z) : float := binary_normalize 53 1024 m e false.

(** [x / 1000.0]: the binary64 quotient, or the TypeError Python raises
    when [x] is not a number. *)
Definition div_1000 (x : Value) : Result float :=
  match x with
  | VLong n => Ok (SFdiv 53 1024 (float_of_int n) (float_of_int 1000))
  | VDouble m e => Ok (SFdiv 53 1024 (float_of_double m e) (float_of_int 1000))
  | VNull => Err (TypeError "unsupported operand type(s) for /: 'NoneType' and 'float'")
  | VStr _ => Err (TypeError "unsupported operand type(s) for /: 'str' and 'float'")
  | VTimestamp _ =>
      Err (TypeError "unsupported operand type(s) for /: 'datetime.datetime' and 'float'")
  end.

(** C [modf]: the integral part (towards zero) and the fractional part of
    a finite float; the fractional part is exact. *)
Definition modf (d : float) : Z * float :=
  match d with
  | S754_finite s m e =>
      if 0 <=? e then ((if s then -1 else 1) * (Z.pos m * 2 ^ e), S754_zero s)
      else
        let q := Z.pos m / 2 ^ (- e) in
        let r := Z.pos m mod 2 ^ (- e) in
        ((if s then -1 else 1) * q,
         match r with Z.pos p => S754_finite s p e | _ => S754_zero s end)
  | _ => (0, d)
  end.

(** The integer nearest to a finite float, ties to even. *)
Definition round_half_even (d : float) : Z :=
  match d with
  | S754_finite s m e =>
      (if s then -1 else 1)
      * (if 0 <=? e then Z.pos m * 2 ^ e else round_half_even_div (Z.pos m) (2 ^ (- e)))
  | _ => 0
  end.

(** CPython's conversion of a float number of seconds to a [time_t] and
    microseconds ([_PyTime_ObjectToTimeval] with half-even rounding):
    split with [modf], scale the fraction by 1e6 in binary64, round, and
    carry into the seconds. *)
Definition timeval (d : float) : Result (Z * Z) :=
  match d with
  | S754_nan => Err (ValueError "Invalid value NaN (not a number)")
  | S754_infinity _ => Err (OverflowError "timestamp out of range for platform time_t")
  | _ =>
      let '(intpart, frac) := modf d in
      let floatpart := round_half_even (SFmul 53 1024 frac (float_of_int 1000000)) in
      let '(intpart, floatpart) :=
        if 1000000 <=? floatpart then (intpart + 1, floatpart - 1000000)
        else if floatpart <? 0 then (intpart - 1, floatpart + 1000000)
        else (intpart, floatpart) in
      if (- 2 ^ 63 <=? intpart) && (intpart <? 2 ^ 63) then Ok (intpart, floatpart)
      else Err (OverflowError "timestamp out of range for platform time_t")
  end.

(** C [localtime] in the zone [tz]: the civil fields of an instant, or
    the OSError of errno EOVERFLOW when the year does not fit [tm_year]. *)
Definition localtime (tz : Z) (t : Z) : Result (Z * Z * Z * Z * Z * Z) :=
  let local := t + tz in
  let sod := local mod 86400 in
  let '(y, m, d) := Calendar.civil_from_days (local / 86400) in
  if (- 2 ^ 31 <=? y - 1900) && (y - 1900 <? 2 ^ 31)
  then Ok (y, m, d, sod / 3600, (sod / 60) mod 60, sod mod 60)
  else Err (OSError "[Errno 75] Value too large for defined data type").

(** [utc_to_seconds] of the datetime module accepts years 1..9999 only. *)
Definition check_year (y : Z) : Result unit :=
  if (1 <=? y) && (y <=? 9999) then Ok tt
  else Err (ValueError ("year " ++ repr_int y ++ " is out of range")).

(** [datetime.fromtimestamp(d)] without a tzinfo (CPython 3.6 and later):
    the local date and time of the instant, with microseconds.  To find
    out whether the local time is ambiguous the function also converts
    the instant 24 hours earlier; both conversions must land in years
    1..9999.  In a zone with one fixed offset no local time is ambiguous,
    so the earlier instant has no other effect. *)
Definition fromtimestamp (tz : Z) (d : float) : Result datetime :=
  match timeval d with
  | Err e => Err e
  | Ok (timet, us) =>
      match localtime tz timet with
      | Err e => Err e
      | Ok (y, m, dd, hh, mm, ss) =>
          match check_year y with
          | Err e => Err e
          | Ok _ =>
              match localtime tz (timet - 24 * 3600) with
              | Err e => Err e
              | Ok (y', _, _, _, _, _) =>
                  match check_year y' with
                  | Err e => Err e
                  | Ok _ =>
                      Ok {| year := y; month := m; day := dd;
                            hour := hh; minute := mm; second := ss;
                            microsecond := us |}
                  end
              end
          end
      end
  end.

(** [TimestampType().toInternal(dt)] for a naive datetime:
    [int(time.mktime(dt.timetuple())) * 1000000 + dt.microsecond], with
    [mktime] in a zone of the one fixed offset [tz] (exactly so in UTC;
    the repeated hour of a zone with transitions is not modelled). *)
Definition toInternal (tz : Z) (dt : datetime) : Z :=
  let seconds :=
    Calendar.days_from_civil (year dt) (month dt) (day dt) * 86400
    + hour dt * 3600 + minute dt * 60 + second dt - tz in
  seconds * 1000000 + microsecond dt.

End Python.

(** ** The engine's [date_format] *)

Module SimpleDateFormat.

Definition decimal (n : Z) : string := NilZero.string_of_uint (N.to_uint (Z.to_N n)).

Fixpoint zeros (n : nat) : string :=
  match n with O => EmptyString | S n' => String "0" (zeros n') end.

(** Decimal digits of [n >= 0], zero-padded on the left to at least
    [count] digits. *)
Definition zero_pad (count : nat) (n : Z) : string :=
  let s := decimal n in
  zeros (count - String.length s) +:+ s.

(** Runs of equal characters of a pattern, with their lengths. *)
Fixpoint runs (p : string) : list (ascii * nat) :=
  match p with
  | EmptyString => []
  | String c p' =>
      match runs p' with
      | (c', n) :: rest =>
          if Ascii.eqb c c' then (c, S n) :: rest else (c, 1%nat) :: (c', n) :: rest
      | [] => [(c, 1%nat)]
      end
  end.

Definition is_letter (c : ascii) : bool :=
  let n := nat_of_ascii c in
  ((65 <=? n)%nat && (n <=? 90)%nat) || ((97 <=? n)%nat && (n <=? 122)%nat).

Fixpoint repeat_char (c : ascii) (n : nat) : string :=
  match n with O => EmptyString | S n' => String c (repeat_char c n') end.

(** One run of a pattern, formatted.  Numeric pattern letters are
    modelled; text letters (names of months, days, zones, eras) and
    quoting are not, and give [None]. *)
Definition format_run (f : Calendar.Fields) (run : ascii * nat) : option string :=
  let '(c, n) := run in
  if negb (is_letter c) then
    if Ascii.eqb c "'" then None else Some (repeat_char c n)
  else if Ascii.eqb c "y" then
    Some (if (n =? 2)%nat then zero_pad 2 (Calendar.f_year f mod 100)
          else zero_pad n (Calendar.f_year f))
  else if Ascii.eqb c "M" then
    if (n <=? 2)%nat then Some (zero_pad n (Calendar.f_month f)) else None
  else if Ascii.eqb c "d" then Some (zero_pad n (Calendar.f_day f))
  else if Ascii.eqb c "H" then Some (zero_pad n (Calendar.f_hour f))
  else if Ascii.eqb c "k" then
    Some (zero_pad n (if Calendar.f_hour f =? 0 then 24 else Calendar.f_hour f))
  else if Ascii.eqb c "m" then Some (zero_pad n (Calendar.f_minute f))
  else if Ascii.eqb c "s" then Some (zero_pad n (Calendar.f_second f))
  else if Ascii.eqb c "S" then Some (zero_pad n (Calendar.f_milli f))
  else if Ascii.eqb c "D" then Some (zero_pad n (Calendar.f_day_of_year f))
  else if Ascii.eqb c "w" then Some (zero_pad n (Calendar.f_week_of_year f))
  else if Ascii.eqb c "W" then Some (zero_pad n (Calendar.f_week_of_month f))
  else if Ascii.eqb c "F" then Some (zero_pad n (Calendar.f_day_of_week_in_month f))
  else if Ascii.eqb c "u" then
    Some (zero_pad n (if Calendar.f_day_of_week f =? 1 then 7
                      else Calendar.f_day_of_week f - 1))
  else None.

Fixpoint format_runs (f : Calendar.Fields) (rs : list (ascii * nat)) : option string :=
  match rs with
  | [] => Some EmptyString
  | r :: rs' =>
      match format_run f r, format_runs f rs' with
      | Some a, Some b => Some (a +:+ b)
      | _, _ => None
      end
  end.

Definition format (pattern : string) (f : Calendar.Fields) : option string :=
  format_runs f (runs pattern).

End SimpleDateFormat.

(** [date_format(c, pattern)]: the timestamp column [c] rendered in the
    session zone; null for a null input.  The engine hands the formatter
    the instant in milliseconds, [micros / 1000] with truncation.  Patterns
    outside the modelled subset, and columns that are not timestamps, read
    as null here. *)
Definition date_format (tz : Z) (c : string) (pattern : string) : Row -> Value :=
  fun r =>
    match col c r with
    | VTimestamp us =>
        match SimpleDateFormat.format pattern (Calendar.fields_of_millis tz (us ÷ 1000)) with
        | Some s => VStr s
        | None => VNull
        end
    | _ => VNull
    end.

(** [monotonically_increasing_id()]: the partition index in the upper 31
    bits, the position of the row within its partition in the lower 33,
    as a 64-bit signed integer. *)
Definition wrap64 (z : Z) : Z := (z + 2 ^ 63) mod 2 ^ 64 - 2 ^ 63.

Definition monotonically_increasing_id (partition_index count : Z) : Z :=
  wrap64 (wrap64 (Z.shiftl partition_index 33) + count).

Fixpoint number_rows (name : string) (partition_index count : Z) (rows : DataFrame)
  : DataFrame :=
  match rows with
  | [] => []
  | r :: rows' =>
      set_col name (VLong (monotonically_increasing_id partition_index count)) r
      :: number_rows name partition_index (count + 1) rows'
  end.

Fixpoint number_partitions (name : string) (partition_index : Z) (parts : list DataFrame)
  : list DataFrame :=
  match parts with
  | [] => []
  | p :: parts' =>
      number_rows name partition_index 0 p
      :: number_partitions name (partition_index + 1) parts'
  end.

(** [df.withColumn(name, monotonically_increasing_id())].  How the engine
    spreads the rows of [df] over partitions is its own business:
    [layout] is that choice. *)
Definition withColumn_id (layout : DataFrame -> list DataFrame) (name : string)
    (df : DataFrame) : DataFrame :=
  concat (number_partitions name 0 (layout df)).

(** ** Storage, sessions and the job monad *)

(** What a path holds: the rows and the columns the directory is
    partitioned by (none for a plain write or for an input dataset). *)
Record Stored : Type := mkStored {
  partitioning : list string;
  content : DataFrame
}.

Inductive Event : Type :=
| GetOrCreateSession
| Load (path : string)
| Save (path : string) (partition_by : list string).

#[global] Instance Event_eq_dec : EqDecision Event.
Proof. solve_decision. Defined.

(** The storage and the record of engine calls.  [leftovers] are the
    output directories that a failed write created and left without
    data. *)
Record World : Type := mkWorld {
  files : gmap string Stored;
  leftovers : list string;
  trace : list Event           (* oldest first *)
}.

Definition M (A : Type) : Type := World -> Result A * World.

Definition ret {A} (a : A) : M A := fun w => (Ok a, w).

Definition raise {A} (e : Error) : M A := fun w => (Err e, w).

Definition bind {A B} (m : M A) (k : A -> M B) : M B :=
  fun w =>
    match m w with
    | (Ok a, w') => k a w'
    | (Err e, w') => (Err e, w')
    end.

Notation "x <- m ;; k" := (bind m (fun x => k))
  (at level 100, m at next level, right associativity).
Notation "m ;;; k" := (bind m (fun _ => k))
  (at level 100, right associativity).

Definition lift {A} (r : Result A) : M A :=
  match r with Ok a => ret a | Err e => raise e end.

Definition emit (e : Event) : M unit :=
  fun w => (Ok tt, {| files := files w; leftovers := leftovers w; trace := trace w ++ [e] |}).

Inductive SparkSession : Type := Session.

(** [spark.read.format("json").load(path)] *)
Definition load_json (spark : SparkSession) (path : string) : M DataFrame :=
  emit (Load path) ;;;
  fun w =>
    match files w !! path with
    | Some st => (Ok (content st), w)
    | None => (Err (PathNotFound path), w)
    end.

(** A dataframe is evaluated only by the action that needs its rows.
    A frame whose rows depend on a Python UDF is carried as the outcome
    its evaluation will have: the rows, or the exception of the UDF. *)
Definition rmap {A B} (f : A -> B) (r : Result A) : Result B :=
  match r with Ok a => Ok (f a) | Err e => Err e end.

(** Whether something is at [path]: a stored table or a leftover
    directory. *)
Definition path_exists (fs : gmap string Stored) (ls : list string) (path : string)
  : bool :=
  match fs !! path with
  | Some _ => true
  | None => bool_decide (path ∈ ls)
  end.

(** [df.write], [writer.partitionBy(cols)] and [writer.parquet(path)].
    No mode is set, so the write refuses an existing path.  Otherwise it
    sets up the output directory and evaluates the frame; when that
    evaluation raises, the write fails and the directory stays behind
    without data. *)
Record DataFrameWriter : Type := mkWriter {
  w_df : Result DataFrame;
  w_partition_by : list string
}.

Definition write (df : Result DataFrame) : DataFrameWriter :=
  {| w_df := df; w_partition_by := [] |}.

Definition partitionBy (cols : list string) (wr : DataFrameWriter) : DataFrameWriter :=
  {| w_df := w_df wr; w_partition_by := cols |}.

Definition parquet (wr : DataFrameWriter) (path : string) : M unit :=
  emit (Save path (w_partition_by wr)) ;;;
  fun w =>
    if path_exists (files w) (leftovers w) path then (Err (PathAlreadyExists path), w)
    else
      match w_df wr with
      | Ok rows =>
          (Ok tt,
           {| files := <[path := {| partitioning := w_partition_by wr; content := rows |}]>
                         (files w);
              leftovers := leftovers w;
              trace := trace w |})
      | Err e =>
          (Err e,
           {| files := files w; leftovers := path :: leftovers w; trace := trace w |})
      end.

(** [os.path.join(a, b)] (posixpath). *)
Definition starts_with_sep (s : string) : bool :=
  match s with String c _ => Ascii.eqb c "/" | EmptyString => false end.

Fixpoint ends_with_sep (s : string) : bool :=
  match s with
  | EmptyString => false
  | String c EmptyString => Ascii.eqb c "/"
  | String _ s' => ends_with_sep s'
  end.

Definition os_path_join (a b : string) : string :=
  if starts_with_sep b then b
  else if String.eqb a EmptyString || ends_with_sep a then a +:+ b
  else a +:+ "/" +:+ b.

(** ** The job *)

Section Job.

(** The zone of the machine, seconds east of UTC, and the engine's
    placement of the joined rows in partitions. *)
Variable tz : Z.
Variable layout : DataFrame -> list DataFrame.

Definition create_spark_session : M SparkSession :=
  emit GetOrCreateSession ;;; ret Session.

(** *** Song metadata: [songs] and [artists] *)

Definition song_columns : list string :=
  ["song_id"; "title"; "artist_id"; "year"; "duration"].

Definition songs_table (df_song : DataFrame) : DataFrame :=
  let songs_table := select (List.map named song_columns) df_song in
  let songs_table := dropDuplicates ["song_id"] songs_table in
  dropna ["song_id"] songs_table.

Definition artist_columns : list string :=
  ["artist_id"; "artist_name"; "artist_location"; "artist_latitude"; "artist_longitude"].

Definition artists_table (df_song : DataFrame) : DataFrame :=
  let artists_table := select (List.map named artist_columns) df_song in
  let artists_table := dropDuplicates ["artist_id"] artists_table in
  dropna ["artist_id"] artists_table.

(** The transforms below follow the script statement by statement.  A
    statement that builds a table has two parts here: the resolution of
    the columns it names, which happens (and can fail) when the statement
    runs, and the rows of the table, which the later write evaluates. *)
Definition process_song_data (spark : SparkSession) (input_data output_data : string)
  : M unit :=
  let song_path := "song_data/*/*/*" in
  let song_path := os_path_join input_data song_path in
  df_song <- load_json spark song_path ;;
  lift (resolve_all (columns df_song) song_columns) ;;;
  let song_parq_path := "songs_table_parquet" in
  parquet (partitionBy ["artist_id"; "year"] (write (Ok (songs_table df_song))))
          (os_path_join output_data song_parq_path) ;;;
  lift (resolve_all (columns df_song) artist_columns) ;;;
  let artist_parq_path := "artist_table_parquet" in
  parquet (write (Ok (artists_table df_song))) (os_path_join output_data artist_parq_path).

(** *** Logs: [users], [time] and [songplays] *)

(** [df.filter(df["page"] == 'NextSong')] *)
Definition next_song (df : DataFrame) : DataFrame :=
  filter_rows (fun r => sql_eq (col "page" r) (VStr "NextSong")) df.

Definition user_columns : list string :=
  ["userId"; "firstName"; "lastName"; "gender"; "level"].

(** [df] is the filtered log. *)
Definition user_table (df : DataFrame) : DataFrame :=
  let user_table := select (List.map named user_columns) df in
  let user_table := dropDuplicates ["userId"] user_table in
  dropna ["userId"] user_table.

(** [F.udf(lambda x: datetime.fromtimestamp(x/1000.0), T.TimestampType())]
    applied to a column: the lambda's datetime, stored as an instant. *)
Definition get_timestamp (c : string) : Row -> Result Value :=
  fun r =>
    match Python.div_1000 (col c r) with
    | Err e => Err e
    | Ok t =>
        match Python.fromtimestamp tz t with
        | Err e => Err e
        | Ok dt => Ok (VTimestamp (Python.toInternal tz dt))
        end
    end.

(** The filtered log with [ts] converted and renamed to [start_time]:
    the rows, or the exception the UDF raises for one of them. *)
Definition with_start_time (df : DataFrame) : Result DataFrame :=
  match withColumn "ts" (get_timestamp "ts") df with
  | Err e => Err e
  | Ok df => Ok (withColumnRenamed "ts" "start_time" df)
  end.

(** [df] is the filtered log with [start_time]. *)
Definition time_table (df : DataFrame) : DataFrame :=
  select [ named "start_time";
           alias (date_format tz "start_time" "H") "hour";
           alias (date_format tz "start_time" "D") "day";
           alias (date_format tz "start_time" "w") "week";
           alias (date_format tz "start_time" "M") "month";
           alias (date_format tz "start_time" "y") "year";
           alias (date_format tz "start_time" "W") "weekday" ] df.

(** The columns of the joined frame that the songplays table names. *)
Definition joined_columns : list string :=
  [ "start_time"; "userId"; "level"; "song_id"; "artist_id"; "sessionId"; "location";
    "userAgent" ].

Definition songplay_columns : list NamedExpr :=
  [ named "start_time"; named "userId"; named "level"; named "song_id";
    named "artist_id"; named "sessionId"; named "location"; named "userAgent";
    alias (date_format tz "start_time" "y") "year";
    alias (date_format tz "start_time" "M") "month" ].

(** The join of the filtered log with the song data, projected: the
    songplays table before its identifiers are assigned. *)
Definition songplays_joined (df song_df : DataFrame) : DataFrame :=
  let log_df := df in
  let songplays_table :=
    join log_df song_df (fun l s => sql_eq (col "song" l) (col "title" s)) in
  select songplay_columns songplays_table.

Definition songplays_table (df song_df : DataFrame) : DataFrame :=
  withColumn_id layout "songplay_id" (songplays_joined df song_df).

(** [with_start_time df] is not evaluated where the script builds it:
    the write of the time table is the first action that needs its rows,
    so an exception of the UDF surfaces inside that write. *)
Definition process_log_data (spark : SparkSession) (input_data output_data : string)
  : M unit :=
  let log_data := "log_data/*/*" in
  let log_data := os_path_join input_data log_data in
  df <- load_json spark log_data ;;
  let cols := columns df in
  lift (resolve cols "page") ;;;
  let df := next_song df in
  lift (resolve_all cols user_columns) ;;;
  let user_parq_path := "user_table_parquet" in
  parquet (write (Ok (user_table df))) (os_path_join output_data user_parq_path) ;;;
  lift (getattr cols "ts") ;;;
  let df := with_start_time df in
  let cols := rename_column "ts" "start_time" cols in
  lift (resolve cols "start_time") ;;;
  let time_parq_path := "time_table_parquet" in
  parquet (write (rmap time_table df)) (os_path_join output_data time_parq_path) ;;;
  let song_path := "song_data/*/*/*" in
  let song_path := os_path_join input_data song_path in
  song_df <- load_json spark song_path ;;
  let log_df := df in
  lift (getattr cols "song") ;;;
  lift (getattr (columns song_df) "title") ;;;
  lift (resolve_all (cols ++ columns song_df) joined_columns) ;;;
  let songplay_parq_path := "songplay_table_parquet" in
  parquet (partitionBy ["year"; "month"]
             (write (rmap (fun log_df => songplays_table log_df song_df) log_df)))
          (os_path_join output_data songplay_parq_path).

(** *** Orchestration *)

Definition main : M unit :=
  spark <- create_spark_session ;;
  let input_data := "s3a://udacity-dend/" in
  let output_data := "analytics" in
  process_log_data spark input_data output_data ;;;
  process_song_data spark input_data output_data.

(** The exit status of the interpreter: an uncaught exception is 1. *)
Definition exit_status (r : Result unit * World) : Z :=
  match fst r with Ok _ => 0 | Err _ => 1 end.

(** The three tables of the log transform as functions of the raw log
    and the song data; they exist when the timestamp UDF succeeds on the
    filtered log. *)
Definition users_of (log : DataFrame) : DataFrame := user_table (next_song log).

Definition time_of (log : DataFrame) : Result DataFrame :=
  match with_start_time (next_song log) with
  | Err e => Err e
  | Ok df => Ok (time_table df)
  end.

Definition songplays_of (log song_df : DataFrame) : Result DataFrame :=
  match with_start_time (next_song log) with
  | Err e => Err e
  | Ok df => Ok (songplays_table df song_df)
  end.

End Job.

(** ** Vocabulary of the statements *)

(** Number of rows of [t] whose column [c] holds [v]. *)
Definition count_rows (c : string) (v : Value) (t : DataFrame) : nat :=
  length (List.filter (fun row => bool_decide (col c row = v)) t).

(** A row without its column [c]. *)
Definition drop_col (c : string) (r : Row) : Row :=
  List.filter (fun kv => negb (String.eqb (fst kv) c)) r.

(** The song records a log event joins with, in the words of the
    specification: those whose title is exactly the event's song. *)
Definition matching_songs (event : Row) (song_df : DataFrame) : DataFrame :=
  List.filter
    (fun s => negb (is_null (col "song" event)) && bool_decide (col "song" event = col "title" s))
    song_df.

(** Whether a row has a column named [c]. *)
Definition has_col (c : string) (r : Row) : bool :=
  existsb (String.eqb c) (List.map fst r).

(** The schema of the activity log has no [start_time] column. *)
Definition log_schema_ok (log : DataFrame) : bool :=
  forallb (fun r => negb (has_col "start_time" r)) log.

(** The engine places every row of a dataframe in exactly one partition. *)
Definition lays_out (layout : DataFrame -> list DataFrame) : Prop :=
  forall df, Permutation (concat (layout df)) df.

(** The operating range of [monotonically_increasing_id]: fewer than
    2^31 partitions, at most 2^33 rows in each. *)
Definition within_id_range (parts : list DataFrame) : Prop :=
  Z.of_nat (length parts) <= 2 ^ 31
  /\ Forall (fun p => Z.of_nat (length p) <= 2 ^ 33) parts.

(** The locations compiled into [main]. *)
Definition log_path : string := "s3a://udacity-dend/log_data/*/*".
Definition song_path : string := "s3a://udacity-dend/song_data/*/*/*".
Definition users_out : string := "analytics/user_table_parquet".
Definition time_out : string := "analytics/time_table_parquet".
Definition songplays_out : string := "analytics/songplay_table_parquet".
Definition songs_out : string := "analytics/songs_table_parquet".
Definition artists_out : string := "analytics/artist_table_parquet".

(** The engine calls of a complete run, and the part of them made by the
    log transform. *)
Definition log_stage_events : list Event :=
  [ Load log_path; Save users_out []; Save time_out [];
    Load song_path; Save songplays_out ["year"; "month"] ].

Definition song_stage_events : list Event :=
  [ Load song_path; Save songs_out ["artist_id"; "year"]; Save artists_out [] ].

Definition run_events : list Event :=
  GetOrCreateSession :: log_stage_events ++ song_stage_events.


(** The engine calls made between two states of the world. *)
Definition events_since (w w' : World) : list Event :=
  drop (length (trace w)) (trace w').

(** The partitioning the specification gives for each output. *)
Definition declared_partitioning (path : string) : list string :=
  if String.eqb path songs_out then ["artist_id"; "year"]
  else if String.eqb path songplays_out then ["year"; "month"]
  else [].

(** The log transform as [main] runs it: after the session is obtained,
    on the compiled-in locations. *)
Definition log_stage (tz : Z) (layout : DataFrame -> list DataFrame) (w : World)
  : Result unit * World :=
  process_log_data tz layout Session "s3a://udacity-dend/" "analytics"
    (snd (create_spark_session w)).

(** The five output locations of [main]. *)
Definition output_paths : list string :=
  [users_out; time_out; songplays_out; songs_out; artists_out].

(** A step that only adds files, and only at the given paths: what is
    stored stays as it is, paths outside [paths] are not touched, and the
    record of engine calls only grows. *)
Definition writes_within (paths : list string) {A} (m : M A) : Prop :=
  forall w,
    (forall p st, files w !! p = Some st -> files (snd (m w)) !! p = Some st)
    /\ (forall p, p ∉ paths -> files (snd (m w)) !! p = files w !! p)
    /\ trace w `prefix_of` trace (snd (m w)).

(** Every column reference of the two transforms resolves, in the order
    the script makes them: on the log, [page], the user columns, [ts],
    the renamed [start_time] and [song]; on the song data, [title] and
    the song and artist columns; on the join, the columns of the
    songplays table. *)
Definition log_columns_resolve (log : DataFrame) : bool :=
  let cols := columns log in
  let cols' := rename_column "ts" "start_time" cols in
  is_ok (resolve cols "page")
  && is_ok (resolve_all cols user_columns)
  && is_ok (getattr cols "ts")
  && is_ok (resolve cols' "start_time")
  && is_ok (getattr cols' "song").

Definition columns_resolve (log song_df : DataFrame) : bool :=
  let cols' := rename_column "ts" "start_time" (columns log) in
  let song_cols := columns song_df in
  log_columns_resolve log
  && is_ok (getattr song_cols "title")
  && is_ok (resolve_all (cols' ++ song_cols) joined_columns)
  && is_ok (resolve_all song_cols song_columns)
  && is_ok (resolve_all song_cols artist_columns).

(** The engine itself compares column names without regard to case.
    That makes no difference when no two of the names involved, those of
    the datasets and those the script writes, differ in case only. *)
Definition lower_ascii (a : ascii) : ascii :=
  let n := nat_of_ascii a in
  if (65 <=? n)%nat && (n <=? 90)%nat then ascii_of_nat (n + 32) else a.

Fixpoint to_lower (s : string) : string :=
  match s with
  | EmptyString => EmptyString
  | String a s' => String (lower_ascii a) (to_lower s')
  end.

Definition script_names : list string :=
  "page" :: "ts" :: "start_time" :: "song" :: "title"
  :: user_columns ++ joined_columns ++ song_columns ++ artist_columns.

Definition case_clean (cols : list string) : bool :=
  bool_decide (NoDup (List.map to_lower (remove_dups (cols ++ script_names)))).

(** A value as the JSON reader returns it: a string, a 64-bit integer or
    a binary64 number; a timestamp is never read. *)
Definition read_value (v : Value) : bool :=
  match v with
  | VNull | VStr _ => true
  | VLong n => (- 2 ^ 63 <=? n) && (n <? 2 ^ 63)
  | VDouble m e => (Z.abs m <? 2 ^ 53) && (-1074 <=? e) && (e <=? 971)
  | VTimestamp _ => false
  end.

Definition same_type (a b : Value) : bool :=
  match a, b with
  | VNull, _ | _, VNull => true
  | VStr _, VStr _ | VLong _, VLong _ | VDouble _ _, VDouble _ _ => true
  | _, _ => false
  end.

(** A dataset as the reader returns it: no record names a field twice,
    every value is one the reader produces, and the values of a column
    are of one type in all records. *)
Definition well_typed (df : DataFrame) : bool :=
  forallb (fun r => bool_decide (NoDup (List.map fst r))
                    && forallb (fun kv => read_value (snd kv)) r) df
  && forallb
       (fun r =>
          forallb (fun r' => forallb (fun kv => same_type (snd kv) (col (fst kv) r')) r) df)
       df.

(** A log, and a log with song data, in order for the job: read as the
    reader returns them, with the columns the script names resolving,
    and no two names differing in case only. *)
Definition log_in_order (log : DataFrame) : bool :=
  log_columns_resolve log && case_clean (columns log) && well_typed log.

Definition datasets_in_order (log song_df : DataFrame) : bool :=
  columns_resolve log song_df
  && case_clean (columns log ++ columns song_df)
  && well_typed log && well_typed song_df.

(** Nothing is at any of the five output locations. *)
Definition outputs_absent (w : World) : Prop :=
  forall p, p ∈ output_paths -> path_exists (files w) (leftovers w) p = false.

(** The files after a complete run: the five tables stored at the five
    output locations, beside what was there. *)
Definition store_tables (tz : Z) (layout : DataFrame -> list DataFrame)
    (log song_df events : DataFrame) (fs : gmap string Stored) : gmap string Stored :=
  <[artists_out := mkStored [] (artists_table song_df)]>
    (<[songs_out := mkStored ["artist_id"; "year"] (songs_table song_df)]>
       (<[songplays_out :=
            mkStored ["year"; "month"] (songplays_table tz layout events song_df)]>
          (<[time_out := mkStored [] (time_table tz events)]>
             (<[users_out := mkStored [] (users_of log)]> fs)))).

(** ** Sample data *)

Module Sample.

(** A record of the activity log. *)
Definition log_record (page userId level song : string) (ts : Z) : Row :=
  [ ("artist", VStr "Elena"); ("auth", VStr "Logged In"); ("firstName", VStr "Lily");
    ("gender", VStr "F"); ("itemInSession", VLong 0); ("lastName", VStr "Koch");
    ("length", VDouble 4825 (-4)); ("level", VStr level);
    ("location", VStr "Chicago-Naperville-Elgin, IL-IN-WI"); ("method", VStr "PUT");
    ("page", VStr page); ("registration", VLong 1541048010796); ("sessionId", VLong 818);
    ("song", VStr song); ("status", VLong 200); ("ts", VLong ts);
    ("userAgent", VStr "Mozilla/5.0"); ("userId", VStr userId) ].

(** A record of the song metadata. *)
Definition song_record (song_id title artist_id : string) : Row :=
  [ ("artist_id", VStr artist_id); ("artist_latitude", VNull);
    ("artist_location", VStr "Dubai UAE"); ("artist_longitude", VNull);
    ("artist_name", VStr "Elena"); ("duration", VDouble 4825 (-4));
    ("num_songs", VLong 1); ("song_id", VStr song_id); ("title", VStr title);
    ("year", VLong 0) ].

Definition play : Row := log_record "NextSong" "15" "paid" "Setanta matins" 1542241826796.
Definition play_unknown : Row := log_record "NextSong" "15" "paid" "Unheard" 1542241826796.
Definition visit : Row := log_record "Home" "26" "free" "Intro" 1542241826796.
Definition play_sunday : Row := log_record "NextSong" "26" "free" "Setanta matins" 259200000.
Definition play_no_ts : Row := [("page", VStr "NextSong"); ("userId", VStr "8")].

Definition log : DataFrame := [play; visit; play_unknown].

(** Two playback events of the same song. *)
Definition two_plays : DataFrame := [play; play_sunday].

Definition songs : DataFrame :=
  [ song_record "SOZCTXZ12AB0182364" "Setanta matins" "AR5KOSW1187FB35FF4";
    song_record "SOBBUGU12A8C13E95D" "Setting Fire to Sleeping Giants" "ARMAC4T1187FB3FA4C" ].

(** The row of the time table for [play] and [play_unknown] in UTC. *)
Definition time_row : Row :=
  [ ("start_time", VTimestamp 1542241826796000); ("hour", VStr "0");
    ("day", VStr "319"); ("week", VStr "46"); ("month", VStr "11");
    ("year", VStr "2018"); ("weekday", VStr "3") ].

(** The row of the time table for [play_sunday] (1970-01-04) in UTC. *)
Definition sunday_row : Row :=
  [ ("start_time", VTimestamp 259200000000); ("hour", VStr "0");
    ("day", VStr "4"); ("week", VStr "2"); ("month", VStr "1");
    ("year", VStr "1970"); ("weekday", VStr "2") ].

(** The row of the songplays table for [play] joined with the first of
    [songs], in UTC, as the first row of the first partition. *)
Definition songplay_row : Row :=
  [ ("start_time", VTimestamp 1542241826796000); ("userId", VStr "15");
    ("level", VStr "paid"); ("song_id", VStr "SOZCTXZ12AB0182364");
    ("artist_id", VStr "AR5KOSW1187FB35FF4"); ("sessionId", VLong 818);
    ("location", VStr "Chicago-Naperville-Elgin, IL-IN-WI");
    ("userAgent", VStr "Mozilla/5.0"); ("year", VStr "2018"); ("month", VStr "11");
    ("songplay_id", VLong 0) ].

(** One partition, and partitions of one row each. *)
Definition one_partition (df : DataFrame) : list DataFrame := [df].
Definition row_per_partition (df : DataFrame) : list DataFrame :=
  List.map (fun r => [r]) df.

Definition input_files : gmap string Stored :=
  <[log_path := mkStored [] log]> (<[song_path := mkStored [] songs]> ∅).

Definition world : World := {| files := input_files; leftovers := []; trace := [] |}.

(** A world without the log dataset, and one whose log has a play
    without a timestamp. *)
Definition world_no_log : World :=
  {| files := <[song_path := mkStored [] songs]> ∅; leftovers := []; trace := [] |}.

Definition world_bad_ts : World :=
  {| files := <[log_path := mkStored [] [play; play_no_ts]]>
                (<[song_path := mkStored [] songs]> ∅);
     leftovers := [];
     trace := [] |}.

(** Worlds whose log or song dataset is there but holds no record, and
    one whose log holds no playback event. *)
Definition world_empty_log : World :=
  {| files := <[log_path := mkStored [] []]> (<[song_path := mkStored [] songs]> ∅);
     leftovers := [];
     trace := [] |}.

Definition world_empty_songs : World :=
  {| files := <[log_path := mkStored [] log]> (<[song_path := mkStored [] []]> ∅);
     leftovers := [];
     trace := [] |}.

Definition world_no_play : World :=
  {| files := <[log_path := mkStored [] [visit]]> (<[song_path := mkStored [] songs]> ∅);
     leftovers := [];
     trace := [] |}.

End Sample.

(** * Properties *)

(** ** Facts about the dataframe operations *)

Section DataFrameFacts.

Implicit Types (r : Row) (df : DataFrame) (c : string) (subset : list string).

Lemma col_eval_row_named c (cols : list string) r :
  c ∈ cols -> col c (eval_row (List.map named cols) r) = col c r.
Proof.
  induction cols as [|c' cols IH]; intros Hin.
  - inversion Hin.
  - cbn. destruct (String.eqb_spec c' c) as [->|Hne]; [reflexivity|].
    apply IH. inversion Hin; subst; [congruence|assumption].
Qed.

Lemma col_set_col_eq c v r : col c (set_col c v r) = v.
Proof.
  induction r as [|[k x] r IH]; cbn.
  - now rewrite String.eqb_refl.
  - destruct (String.eqb_spec k c) as [->|Hne]; cbn.
    + now rewrite String.eqb_refl.
    + destruct (String.eqb_spec k c); [congruence|assumption].
Qed.

Lemma col_set_col_ne c name v r : c <> name -> col c (set_col name v r) = col c r.
Proof.
  intros Hne. induction r as [|[k x] r IH]; cbn.
  - destruct (String.eqb_spec name c); [congruence|reflexivity].
  - destruct (String.eqb_spec k name) as [->|Hk]; cbn.
    + destruct (String.eqb_spec name c); [congruence|reflexivity].
    + destruct (String.eqb_spec k c); [reflexivity|assumption].
Qed.

Lemma col_app_l c (l r : Row) : has_col c l = true -> col c (l ++ r) = col c l.
Proof.
  induction l as [|[k x] l IH]; cbn; [discriminate|].
  rewrite String.eqb_sym.
  destruct (String.eqb_spec k c); [reflexivity|]. cbn. exact IH.
Qed.

Lemma elem_of_select (es : list NamedExpr) df row :
  row ∈ select es df <-> exists e, e ∈ df /\ row = eval_row es e.
Proof.
  unfold select. rewrite list_elem_of_In, in_map_iff.
  split; intros (e & H1 & H2).
  - exists e. split; [now apply list_elem_of_In|now symmetry].
  - exists e. split; [now symmetry|now apply list_elem_of_In].
Qed.

Lemma elem_of_join (left right : DataFrame) cond row :
  row ∈ join left right cond <->
  exists l s, l ∈ left /\ s ∈ right /\ holds (cond l s) = true /\ row = l ++ s.
Proof.
  unfold join. rewrite list_elem_of_In, in_flat_map. split.
  - intros (l & Hl & Hrow). apply in_map_iff in Hrow as (s & <- & Hs).
    apply filter_In in Hs as [Hs Hc].
    exists l, s. repeat split; try assumption; now apply list_elem_of_In.
  - intros (l & s & Hl & Hs & Hc & ->).
    exists l. split; [now apply list_elem_of_In|].
    apply in_map, filter_In. split; [now apply list_elem_of_In|assumption].
Qed.

Lemma dedup_from_elem subset seen df r :
  r ∈ dedup_from subset seen df -> r ∈ df /\ key_of subset r ∉ seen.
Proof.
  revert seen. induction df as [|x df IH]; intros seen Hin; cbn in Hin.
  - inversion Hin.
  - case_bool_decide as Hseen.
    + apply IH in Hin as [? ?]. split; [now right|assumption].
    + apply elem_of_cons in Hin as [->|Hin].
      * split; [now left|assumption].
      * apply IH in Hin as [? Hns]. split; [now right|].
        intros ?. apply Hns. now right.
Qed.

Lemma dedup_from_NoDup subset seen df :
  NoDup (List.map (key_of subset) (dedup_from subset seen df)).
Proof.
  revert seen. induction df as [|x df IH]; intros seen; cbn.
  - constructor.
  - case_bool_decide as Hseen; [apply IH|].
    cbn. constructor; [|apply IH].
    intros Hin. apply list_elem_of_In, in_map_iff in Hin as (y & Hk & Hy).
    apply list_elem_of_In, dedup_from_elem in Hy as [_ Hns].
    apply Hns. rewrite Hk. now left.
Qed.

Lemma dedup_from_complete subset seen df r :
  r ∈ df -> key_of subset r ∉ seen ->
  exists r', r' ∈ dedup_from subset seen df /\ key_of subset r' = key_of subset r.
Proof.
  revert seen. induction df as [|x df IH]; intros seen Hin Hns.
  - inversion Hin.
  - cbn. apply elem_of_cons in Hin as [->|Hin].
    + case_bool_decide; [contradiction|]. exists x. split; [now left|reflexivity].
    + case_bool_decide as Hseen.
      * now apply IH.
      * destruct (decide (key_of subset r = key_of subset x)) as [Heq|Hne].
        -- exists x. split; [now left|now symmetry].
        -- destruct (IH (key_of subset x :: seen) Hin) as (r' & ? & ?).
           ++ intros Hc. apply elem_of_cons in Hc as [?|?]; contradiction.
           ++ exists r'. split; [now right|assumption].
Qed.

Lemma filter_key_absent {K} `{EqDecision K} (f : Row -> K) df (k : K) :
  k ∉ List.map f df -> List.filter (fun y => bool_decide (f y = k)) df = [].
Proof.
  induction df as [|y df IH]; intros Hk; [reflexivity|]. cbn.
  rewrite bool_decide_eq_false_2.
  - apply IH. intros Hc. apply Hk. cbn. now right.
  - intros Heq. apply Hk. cbn. rewrite Heq. now left.
Qed.

(** Among rows with pairwise distinct keys, a key that occurs occurs once. *)
Lemma count_key_NoDup {K} `{EqDecision K} (f : Row -> K) df r :
  NoDup (List.map f df) -> r ∈ df ->
  length (List.filter (fun y => bool_decide (f y = f r)) df) = 1%nat.
Proof.
  induction df as [|x df IH]; intros Hnd Hin.
  - inversion Hin.
  - cbn in Hnd. apply NoDup_cons in Hnd as [Hx Hnd]. cbn.
    apply elem_of_cons in Hin as [->|Hin].
    + rewrite bool_decide_eq_true_2 by reflexivity. cbn.
      now rewrite filter_key_absent.
    + rewrite bool_decide_eq_false_2; [now apply IH|].
      intros Heq. apply Hx. rewrite Heq.
      apply list_elem_of_In, in_map, list_elem_of_In, Hin.
Qed.

Lemma NoDup_map_filter {K} (f : Row -> K) (p : Row -> bool) df :
  NoDup (List.map f df) -> NoDup (List.map f (List.filter p df)).
Proof.
  induction df as [|x df IH]; intros Hnd; cbn; [constructor|].
  cbn in Hnd. apply NoDup_cons in Hnd as [Hx Hnd].
  destruct (p x); cbn; [|now apply IH].
  constructor; [|now apply IH].
  intros Hin. apply Hx.
  apply list_elem_of_In, in_map_iff in Hin as (y & Hy & Hin).
  apply filter_In in Hin as [Hin _].
  rewrite <- Hy. apply list_elem_of_In, in_map, Hin.
Qed.

Lemma NoDup_single_key c df :
  NoDup (List.map (key_of [c]) df) -> NoDup (List.map (col c) df).
Proof.
  induction df as [|x df IH]; cbn; intros Hnd; [constructor|].
  apply NoDup_cons in Hnd as [Hx Hnd]. constructor; [|now apply IH].
  intros Hin. apply Hx.
  apply list_elem_of_In, in_map_iff in Hin as (y & Hy & Hin).
  apply list_elem_of_In, in_map_iff. exists y. split; [|assumption].
  unfold key_of. cbn. now rewrite Hy.
Qed.

(** The shape shared by the songs, artists and users tables: project,
    keep one row per key, drop the null key. *)
Lemma keyed_table_facts c (cols : list string) df :
  c ∈ cols ->
  let t := dropna [c] (dropDuplicates [c] (select (List.map named cols) df)) in
  NoDup (List.map (col c) t)
  /\ (forall row, row ∈ t -> col c row <> VNull)
  /\ (forall r, r ∈ df -> col c r <> VNull ->
      exists row, row ∈ t /\ col c row = col c r).
Proof.
  intros Hc t. subst t. unfold dropna, dropDuplicates. repeat split.
  - apply NoDup_map_filter, NoDup_single_key, dedup_from_NoDup.
  - intros row Hin Hnull. apply list_elem_of_In, filter_In in Hin as [_ Hp].
    cbn in Hp. rewrite Hnull in Hp. discriminate.
  - intros r Hin Hnn.
    assert (Hsel : eval_row (List.map named cols) r ∈ select (List.map named cols) df).
    { apply list_elem_of_In, in_map, list_elem_of_In, Hin. }
    destruct (dedup_from_complete [c] [] _ _ Hsel) as (row & Hrow & Hkey).
    { apply not_elem_of_nil. }
    assert (Hcol : col c row = col c r).
    { unfold key_of in Hkey. cbn in Hkey. injection Hkey as Hkey.
      now rewrite Hkey, col_eval_row_named. }
    exists row. split; [|assumption].
    apply list_elem_of_In, filter_In. split; [now apply list_elem_of_In|].
    cbn. rewrite Hcol. destruct (col c r); [contradiction|reflexivity..].
Qed.

(** Number of rows of [t] whose column [c] holds [v]. *)
Lemma keyed_table_count c (cols : list string) df r :
  c ∈ cols -> r ∈ df -> col c r <> VNull ->
  length (List.filter (fun row => bool_decide (col c row = col c r))
            (dropna [c] (dropDuplicates [c] (select (List.map named cols) df)))) = 1%nat.
Proof.
  intros Hc Hin Hnn.
  destruct (keyed_table_facts c cols df Hc) as (Hnd & _ & Hex).
  destruct (Hex r Hin Hnn) as (row & Hrow & Hcol).
  rewrite <- Hcol. now apply count_key_NoDup.
Qed.

End DataFrameFacts.

(** ** The filter on playback events *)

Lemma next_song_elem (log : DataFrame) (r : Row) :
  r ∈ next_song log <-> r ∈ log /\ col "page" r = VStr "NextSong".
Proof.
  unfold next_song, filter_rows.
  rewrite list_elem_of_In, filter_In, <- list_elem_of_In.
  split; intros [Hin Hp]; (split; [assumption|]).
  - unfold sql_eq in Hp. destruct (col "page" r); try discriminate.
    cbn in Hp. case_bool_decide; [assumption|discriminate].
  - now rewrite Hp.
Qed.

Lemma next_song_app (l1 l2 : DataFrame) :
  next_song (l1 ++ l2) = next_song l1 ++ next_song l2.
Proof. unfold next_song, filter_rows. apply List.filter_app. Qed.

Lemma next_song_reject (r : Row) :
  col "page" r <> VStr "NextSong" -> next_song [r] = [].
Proof.
  intros Hp. unfold next_song, filter_rows. cbn.
  unfold sql_eq. destruct (col "page" r); try reflexivity.
  cbn. now rewrite bool_decide_eq_false_2.
Qed.

(** ** Keys of the songs, artists and users tables *)

(** C5. In each of the three key-deduplicated tables the key is unique
    and never null: a song record with a non-null song_id has exactly one
    row with that song_id in the songs table, and no row of the songs
    table has a null song_id; the same holds for the artists table by
    artist_id and for the users table by userId, the users table being
    built from the NextSong records of the log only. *)
Theorem keyed_tables_unique_non_null (df_song log : DataFrame) :
  (forall r, r ∈ df_song -> col "song_id" r <> VNull ->
     count_rows "song_id" (col "song_id" r) (songs_table df_song) = 1%nat)
  /\ (forall row, row ∈ songs_table df_song -> col "song_id" row <> VNull)
  /\ (forall r, r ∈ df_song -> col "artist_id" r <> VNull ->
     count_rows "artist_id" (col "artist_id" r) (artists_table df_song) = 1%nat)
  /\ (forall row, row ∈ artists_table df_song -> col "artist_id" row <> VNull)
  /\ (forall r, r ∈ log -> col "page" r = VStr "NextSong" -> col "userId" r <> VNull ->
     count_rows "userId" (col "userId" r) (users_of log) = 1%nat)
  /\ (forall row, row ∈ users_of log -> col "userId" row <> VNull).
Proof.
  assert (Hs : "song_id" ∈ song_columns) by (apply list_elem_of_In; cbn; auto).
  assert (Ha : "artist_id" ∈ artist_columns) by (apply list_elem_of_In; cbn; auto).
  assert (Hu : "userId" ∈ user_columns) by (apply list_elem_of_In; cbn; auto).
  repeat split.
  - intros r Hin Hnn. now apply keyed_table_count.
  - apply (keyed_table_facts _ _ df_song Hs).
  - intros r Hin Hnn. now apply keyed_table_count.
  - apply (keyed_table_facts _ _ df_song Ha).
  - intros r Hin Hp Hnn. apply keyed_table_count; [assumption| |assumption].
    now apply next_song_elem.
  - apply (keyed_table_facts _ _ (next_song log) Hu).
Qed.

Lemma keyed_tables_unique_non_null_witness :
  count_rows "song_id" (VStr "SOZCTXZ12AB0182364") (songs_table Sample.songs) = 1%nat
  /\ count_rows "artist_id" (VStr "AR5KOSW1187FB35FF4") (artists_table Sample.songs) = 1%nat
  /\ count_rows "userId" (VStr "15") (users_of Sample.log) = 1%nat.
Proof.
  destruct (keyed_tables_unique_non_null Sample.songs Sample.log)
    as (Hs & _ & Ha & _ & Hu & _).
  split; [|split].
  - apply (Hs (Sample.song_record "SOZCTXZ12AB0182364" "Setanta matins" "AR5KOSW1187FB35FF4")).
    + unfold Sample.songs. apply list_elem_of_here.
    + cbn. discriminate.
  - apply (Ha (Sample.song_record "SOZCTXZ12AB0182364" "Setanta matins" "AR5KOSW1187FB35FF4")).
    + unfold Sample.songs. apply list_elem_of_here.
    + cbn. discriminate.
  - apply (Hu Sample.play).
    + unfold Sample.log. apply list_elem_of_here.
    + reflexivity.
    + cbn. discriminate.
Defined.

Lemma next_song_remove (before after : DataFrame) (r : Row) :
  col "page" r <> VStr "NextSong" ->
  next_song (before ++ r :: after) = next_song (before ++ after).
Proof.
  intros Hp.
  change (r :: after) with ([r] ++ after).
  rewrite !next_song_app, (next_song_reject r Hp). reflexivity.
Qed.

(** C3. A log record whose page is not "NextSong" leaves no row in the
    users table, the time table or the songplays table: each of the three
    tables is the same with the record in the log as with the record
    taken out, whatever else the log and the song data hold, and whether
    or not the record has a usable timestamp. *)
Theorem non_playback_records_leave_no_row
    (tz : Z) (layout : DataFrame -> list DataFrame)
    (before after song_df : DataFrame) (r : Row) :
  col "page" r <> VStr "NextSong" ->
  users_of (before ++ r :: after) = users_of (before ++ after)
  /\ time_of tz (before ++ r :: after) = time_of tz (before ++ after)
  /\ songplays_of tz layout (before ++ r :: after) song_df
     = songplays_of tz layout (before ++ after) song_df.
Proof.
  intros Hp. unfold users_of, time_of, songplays_of.
  rewrite (next_song_remove before after r Hp). repeat split.
Qed.

Lemma non_playback_records_leave_no_row_witness :
  col "page" Sample.visit <> VStr "NextSong"
  /\ users_of [Sample.play; Sample.visit; Sample.play_unknown]
     = users_of [Sample.play; Sample.play_unknown]
  /\ time_of 0 [Sample.play; Sample.visit; Sample.play_unknown]
     = time_of 0 [Sample.play; Sample.play_unknown]
  /\ songplays_of 0 Sample.one_partition
       [Sample.play; Sample.visit; Sample.play_unknown] Sample.songs
     = songplays_of 0 Sample.one_partition
       [Sample.play; Sample.play_unknown] Sample.songs.
Proof.
  assert (Hp : col "page" Sample.visit <> VStr "NextSong") by (cbn; discriminate).
  split; [exact Hp|].
  exact (non_playback_records_leave_no_row 0 Sample.one_partition
           [Sample.play] [Sample.play_unknown] Sample.songs Sample.visit Hp).
Defined.

(** ** The time table *)

Lemma mapM_Forall2 {A B} (f : A -> Result B) (l : list A) (l' : list B) :
  mapM f l = Ok l' -> Forall2 (fun x y => f x = Ok y) l l'.
Proof.
  revert l'. induction l as [|x l IH]; intros l' H; cbn in H.
  - injection H as <-. constructor.
  - destruct (f x) as [y|e] eqn:Hx; [|discriminate].
    destruct (mapM f l) as [ys|e] eqn:Hl; [|discriminate].
    injection H as <-. constructor; [assumption|now apply IH].
Qed.

(** The rows of the filtered log with [start_time], one for one. *)
Lemma with_start_time_rows (tz : Z) (df events : DataFrame) :
  with_start_time tz df = Ok events ->
  Forall2 (fun r e => exists v, get_timestamp tz "ts" r = Ok v
                      /\ e = rename_col "ts" "start_time" (set_col "ts" v r))
          df events.
Proof.
  unfold with_start_time, withColumn.
  destruct (mapM _ df) as [l|e] eqn:Hm; [|discriminate].
  intros H. injection H as <-.
  apply mapM_Forall2 in Hm. unfold withColumnRenamed.
  induction Hm as [|r y df l Hr _ IH]; cbn; constructor; [|exact IH].
  destruct (get_timestamp tz "ts" r) as [v|] eqn:Hv; [|discriminate].
  injection Hr as <-. now exists v.
Qed.

(** The time table has a row for every playback event, not for every
    distinct timestamp. *)
Lemma time_of_length (tz : Z) (log t : DataFrame) :
  time_of tz log = Ok t -> length t = length (next_song log).
Proof.
  unfold time_of. destruct (with_start_time tz (next_song log)) as [ev|] eqn:Hw; [|discriminate].
  intros H. injection H as <-.
  apply with_start_time_rows, Forall2_length in Hw.
  unfold time_table, select. now rewrite length_map.
Qed.

(** C1. Two playback events of the same millisecond give the time table
    two rows with the same start_time: the table is not deduplicated, so
    it does not hold one row per distinct timestamp. *)
Theorem time_table_repeats_start_time :
  time_of 0 [Sample.play; Sample.play_unknown] = Ok [Sample.time_row; Sample.time_row]
  /\ col "start_time" Sample.time_row = VTimestamp 1542241826796000
  /\ count_rows "start_time" (VTimestamp 1542241826796000)
       [Sample.time_row; Sample.time_row] = 2%nat.
Proof. split; [vm_compute; reflexivity|split; reflexivity]. Qed.

(** ** Calendar arithmetic: day numbers and civil dates agree *)

Ltac div_lia := Z.div_mod_to_equations; lia.

Ltac decide_cmp :=
  symmetry;
  first [ apply Z.leb_le; lia | apply Z.leb_gt; lia
        | apply Z.ltb_lt; lia | apply Z.ltb_ge; lia
        | rewrite Z.gtb_ltb; apply Z.ltb_lt; lia
        | rewrite Z.gtb_ltb; apply Z.ltb_ge; lia ].

Section CalendarFacts.

Import Calendar.

(** Within a 400-year era: the year of the era, the day of the
    March-based year and the March-based month stay in their ranges. *)
Lemma era_year_month (doe : Z) :
  0 <= doe < 146097 ->
  let yoe := (doe - doe / 1460 + doe / 36524 - doe / 146096) / 365 in
  let doy := doe - (365 * yoe + yoe / 4 - yoe / 100) in
  let mp := (5 * doy + 2) / 153 in
  0 <= yoe <= 399 /\ 0 <= doy <= 365 /\ 0 <= mp <= 11.
Proof. intros H yoe doy mp. subst mp doy yoe. div_lia. Qed.

Lemma days_from_civil_from_days (z : Z) :
  let '(y, m, d) := civil_from_days z in days_from_civil y m d = z.
Proof.
  unfold civil_from_days.
  set (z' := z + 719468).
  set (era := z' / 146097).
  set (doe := z' - era * 146097).
  assert (Hdoe : 0 <= doe < 146097) by (subst doe era; div_lia).
  pose proof (era_year_month doe Hdoe) as H. cbv zeta in H.
  set (yoe := (doe - doe / 1460 + doe / 36524 - doe / 146096) / 365) in *.
  set (doy := doe - (365 * yoe + yoe / 4 - yoe / 100)) in *.
  set (mp := (5 * doy + 2) / 153) in *.
  destruct H as (Hy & Hd & Hm).
  unfold days_from_civil.
  destruct (Z.ltb_spec mp 10) as [Hlt|Hge].
  - replace (mp + 3 <=? 2) with false by decide_cmp.
    replace (mp + 3 >? 2) with true by decide_cmp.
    replace ((yoe + era * 400) / 400) with era by div_lia.
    replace (mp + 3 - 3) with mp by lia.
    replace (yoe + era * 400 - era * 400) with yoe by lia.
    subst doy doe z'. lia.
  - replace (mp - 9 <=? 2) with true by decide_cmp.
    replace (mp - 9 >? 2) with false by decide_cmp.
    replace (yoe + era * 400 + 1 - 1) with (yoe + era * 400) by lia.
    replace ((yoe + era * 400) / 400) with era by div_lia.
    replace (mp - 9 + 9) with mp by lia.
    replace (yoe + era * 400 - era * 400) with yoe by lia.
    subst doy doe z'. lia.
Qed.


End CalendarFacts.

(** ** The timestamp conversion *)


Lemma append_empty_r (s : string) : s +:+ EmptyString = s.
Proof.
  induction s as [|c s IH]; [reflexivity|].
  change (String c (s +:+ EmptyString) = String c s). now rewrite IH.
Qed.

(** A pattern of one letter formats as its one run. *)
Lemma format_one_letter (c : ascii) (f : Calendar.Fields) (s : string) :
  SimpleDateFormat.format_run f (c, 1%nat) = Some s ->
  SimpleDateFormat.format (String c EmptyString) f = Some s.
Proof.
  intros H. unfold SimpleDateFormat.format.
  cbn [SimpleDateFormat.runs SimpleDateFormat.format_runs].
  now rewrite H, append_empty_r.
Qed.

Lemma date_format_timestamp (tz us : Z) (c pattern s : string) (r : Row) :
  col c r = VTimestamp us ->
  SimpleDateFormat.format pattern (Calendar.fields_of_millis tz (us ÷ 1000)) = Some s ->
  date_format tz c pattern r = VStr s.
Proof. intros Hc Hf. unfold date_format. now rewrite Hc, Hf. Qed.





(** ** Rows of the time table *)

Lemma Forall2_elem_r {A B} (R : A -> B -> Prop) (l : list A) (l' : list B) (y : B) :
  Forall2 R l l' -> y ∈ l' -> exists x, x ∈ l /\ R x y.
Proof.
  induction 1 as [|x y' l l' HR _ IH]; intros Hin.
  - inversion Hin.
  - apply elem_of_cons in Hin as [->|Hin].
    + exists x. split; [now left|assumption].
    + destruct (IH Hin) as (x' & ? & ?). exists x'. split; [now right|assumption].
Qed.

Lemma get_timestamp_is_timestamp (tz : Z) (c : string) (r : Row) (v : Value) :
  get_timestamp tz c r = Ok v -> exists us, v = VTimestamp us.
Proof.
  unfold get_timestamp. destruct (Python.div_1000 (col c r)); [|discriminate].
  destruct (Python.fromtimestamp tz a); [|discriminate].
  intros H. injection H as <-. eauto.
Qed.

(** Every event of the converted log is a playback record of the raw
    log with its [ts] replaced by a timestamp and renamed. *)
Lemma with_start_time_elem (tz : Z) (log events : DataFrame) (e : Row) :
  with_start_time tz (next_song log) = Ok events -> e ∈ events ->
  exists r us,
    r ∈ log /\ col "page" r = VStr "NextSong"
    /\ get_timestamp tz "ts" r = Ok (VTimestamp us)
    /\ e = rename_col "ts" "start_time" (set_col "ts" (VTimestamp us) r).
Proof.
  intros Hw Hin. apply with_start_time_rows in Hw.
  destruct (Forall2_elem_r _ _ _ _ Hw Hin) as (r & Hr & v & Hv & ->).
  apply next_song_elem in Hr as [Hr Hp].
  destruct (get_timestamp_is_timestamp _ _ _ _ Hv) as [us ->].
  exists r, us. auto.
Qed.

Lemma has_col_cons (c k : string) (x : Value) (r : Row) :
  has_col c ((k, x) :: r) = String.eqb c k || has_col c r.
Proof. reflexivity. Qed.

Lemma rename_col_cons (old new k : string) (x : Value) (r : Row) :
  rename_col old new ((k, x) :: r)
  = (if String.eqb k old then (new, x) else (k, x)) :: rename_col old new r.
Proof. reflexivity. Qed.

Lemma col_cons (c k : string) (x : Value) (r : Row) :
  col c ((k, x) :: r) = if String.eqb k c then x else col c r.
Proof. reflexivity. Qed.

Lemma renamed_col (old new : string) (v : Value) (r : Row) :
  has_col new r = false ->
  col new (rename_col old new (set_col old v r)) = v
  /\ has_col new (rename_col old new (set_col old v r)) = true.
Proof.
  intros Hno. induction r as [|[k x] r IH].
  - cbn [set_col]. rewrite rename_col_cons, String.eqb_refl, col_cons, has_col_cons.
    now rewrite String.eqb_refl.
  - rewrite has_col_cons in Hno. apply orb_false_elim in Hno as [Hk Hno].
    cbn [set_col]. destruct (String.eqb_spec k old) as [->|Hne].
    + rewrite rename_col_cons, String.eqb_refl, col_cons, has_col_cons.
      now rewrite String.eqb_refl.
    + destruct (IH Hno) as [IH1 IH2].
      rewrite rename_col_cons.
      destruct (String.eqb_spec k old); [contradiction|].
      rewrite col_cons, has_col_cons, (String.eqb_sym k new), Hk. cbn [orb].
      split; assumption.
Qed.

(** Where the log's schema has no [start_time] of its own, the renamed
    column is the one [start_time] of the row. *)
Lemma start_time_of_event (v : Value) (r : Row) :
  has_col "start_time" r = false ->
  let e := rename_col "ts" "start_time" (set_col "ts" v r) in
  col "start_time" e = v /\ has_col "start_time" e = true.
Proof. intros Hno e. now apply renamed_col. Qed.

Lemma date_format_ext (tz : Z) (c pattern : string) (r r' : Row) :
  col c r = col c r' -> date_format tz c pattern r = date_format tz c pattern r'.
Proof. intros H. unfold date_format. now rewrite H. Qed.

(** The rows of the time table, read column by column. *)
Lemma time_table_elem (tz : Z) (df : DataFrame) (row : Row) :
  row ∈ time_table tz df ->
  exists e, e ∈ df
    /\ col "start_time" row = col "start_time" e
    /\ col "hour" row = date_format tz "start_time" "H" e
    /\ col "day" row = date_format tz "start_time" "D" e
    /\ col "week" row = date_format tz "start_time" "w" e
    /\ col "month" row = date_format tz "start_time" "M" e
    /\ col "year" row = date_format tz "start_time" "y" e
    /\ col "weekday" row = date_format tz "start_time" "W" e.
Proof.
  unfold time_table. intros Hin. apply elem_of_select in Hin as (e & He & ->).
  exists e. repeat split; assumption.
Qed.

Lemma format_week_of_month (f : Calendar.Fields) :
  SimpleDateFormat.format "W" f
  = Some (SimpleDateFormat.zero_pad 1 (Calendar.f_week_of_month f)).
Proof. apply format_one_letter. reflexivity. Qed.

(** C6, as stated, fails: on Sunday 1970-01-04 the weekday column reads
    "2", the week of the month, whereas the day-of-week-in-month pattern
    ("F") applied to the same start_time gives "1" (the first Sunday). *)
Lemma weekday_is_not_day_of_week_in_month :
  time_of 0 [Sample.play_sunday] = Ok [Sample.sunday_row]
  /\ col "weekday" Sample.sunday_row = VStr "2"
  /\ date_format 0 "start_time" "F" Sample.sunday_row = VStr "1"
  /\ col "weekday" Sample.sunday_row <> date_format 0 "start_time" "F" Sample.sunday_row.
Proof.
  split; [vm_compute; reflexivity|].
  split; [reflexivity|].
  assert (HF : date_format 0 "start_time" "F" Sample.sunday_row = VStr "1")
    by (vm_compute; reflexivity).
  split; [exact HF|]. rewrite HF. discriminate.
Qed.

(** C6, amended. The weekday column of every row of the time table is the
    week-in-month pattern ("W") applied to the row's start_time: the
    number of the week of the month, weeks starting on Sunday.  It is not
    the day of the week: on Sunday 1970-01-04 it reads "2" while the day of
    the week (pattern "u", Monday = 1) is "7". *)
Theorem weekday_is_week_of_month (tz : Z) (log t : DataFrame) (row : Row) :
  time_of tz log = Ok t -> row ∈ t ->
  col "weekday" row = date_format tz "start_time" "W" row
  /\ (forall us, col "start_time" row = VTimestamp us ->
        col "weekday" row
        = VStr (SimpleDateFormat.zero_pad 1
                  (Calendar.f_week_of_month (Calendar.fields_of_millis tz (us ÷ 1000)))))
  /\ (time_of 0 [Sample.play_sunday] = Ok [Sample.sunday_row]
      /\ col "weekday" Sample.sunday_row = VStr "2"
      /\ date_format 0 "start_time" "u" Sample.sunday_row = VStr "7").
Proof.
  intros Ht Hin. unfold time_of in Ht.
  destruct (with_start_time tz (next_song log)) as [events|] eqn:Hw; [|discriminate].
  injection Ht as <-.
  apply time_table_elem in Hin as (e & He & Hst & _ & _ & _ & _ & _ & Hwd).
  assert (HW : col "weekday" row = date_format tz "start_time" "W" row).
  { rewrite Hwd. now apply date_format_ext. }
  split; [exact HW|]. split.
  - intros us Hus. rewrite HW.
    apply (date_format_timestamp tz us); [assumption|apply format_week_of_month].
  - split; [vm_compute; reflexivity|]. split; [reflexivity|vm_compute; reflexivity].
Qed.

Lemma weekday_is_week_of_month_witness :
  time_of 0 [Sample.play_sunday] = Ok [Sample.sunday_row]
  /\ Sample.sunday_row ∈ [Sample.sunday_row]
  /\ col "weekday" Sample.sunday_row = date_format 0 "start_time" "W" Sample.sunday_row.
Proof.
  assert (Ht : time_of 0 [Sample.play_sunday] = Ok [Sample.sunday_row])
    by (vm_compute; reflexivity).
  assert (Hin : Sample.sunday_row ∈ [Sample.sunday_row]) by apply list_elem_of_here.
  split; [exact Ht|]. split; [exact Hin|].
  exact (proj1 (weekday_is_week_of_month 0 [Sample.play_sunday] [Sample.sunday_row]
                  Sample.sunday_row Ht Hin)).
Defined.

(** ** Rows of the songplays table *)

Lemma number_rows_elem (name : string) (p c : Z) (rows : DataFrame) (row : Row) :
  row ∈ number_rows name p c rows ->
  exists r0 id, r0 ∈ rows /\ row = set_col name (VLong id) r0.
Proof.
  revert c. induction rows as [|r rows IH]; intros c Hin; cbn in Hin.
  - inversion Hin.
  - apply elem_of_cons in Hin as [->|Hin].
    + eexists r, _. split; [now left|reflexivity].
    + destruct (IH _ Hin) as (r0 & id & ? & ?).
      exists r0, id. split; [now right|assumption].
Qed.

Lemma number_partitions_elem (name : string) (p : Z) (parts : list DataFrame) (row : Row) :
  row ∈ concat (number_partitions name p parts) ->
  exists r0 id, r0 ∈ concat parts /\ row = set_col name (VLong id) r0.
Proof.
  revert p. induction parts as [|part parts IH]; intros p Hin; cbn in Hin.
  - inversion Hin.
  - apply elem_of_app in Hin as [Hin|Hin].
    + apply number_rows_elem in Hin as (r0 & id & ? & ?).
      exists r0, id. split; [|assumption]. cbn. apply elem_of_app. now left.
    + destruct (IH _ Hin) as (r0 & id & ? & ?).
      exists r0, id. split; [|assumption]. cbn. apply elem_of_app. now right.
Qed.

Lemma withColumn_id_elem (layout : DataFrame -> list DataFrame) (name : string)
    (df : DataFrame) (row : Row) :
  lays_out layout -> row ∈ withColumn_id layout name df ->
  exists r0 id, r0 ∈ df /\ row = set_col name (VLong id) r0.
Proof.
  intros Hlay Hin. apply number_partitions_elem in Hin as (r0 & id & Hr0 & ->).
  exists r0, id. split; [|reflexivity].
  apply list_elem_of_In. apply (Permutation_in _ (Hlay df)). now apply list_elem_of_In.
Qed.

Lemma songplays_joined_elem (tz : Z) (df song_df : DataFrame) (row : Row) :
  row ∈ songplays_joined tz df song_df <->
  exists e s, e ∈ df /\ s ∈ song_df
    /\ holds (sql_eq (col "song" e) (col "title" s)) = true
    /\ row = eval_row (songplay_columns tz) (e ++ s).
Proof.
  unfold songplays_joined. rewrite elem_of_select. split.
  - intros (j & Hj & ->). apply elem_of_join in Hj as (e & s & He & Hs & Hc & ->).
    exists e, s. auto.
  - intros (e & s & He & Hs & Hc & ->). exists (e ++ s). split; [|reflexivity].
    apply elem_of_join. exists e, s. auto.
Qed.

(** ** Calendar fields are text *)

Lemma job_patterns_format (pattern : string) (f : Calendar.Fields) :
  pattern ∈ ["H"; "D"; "w"; "M"; "y"; "W"] ->
  exists s, SimpleDateFormat.format pattern f = Some s.
Proof.
  intros Hp.
  repeat (apply elem_of_cons in Hp as [->|Hp];
          [eexists; apply format_one_letter; reflexivity|]).
  inversion Hp.
Qed.

Lemma date_format_is_string (tz us : Z) (c pattern : string) (r : Row) :
  col c r = VTimestamp us ->
  pattern ∈ ["H"; "D"; "w"; "M"; "y"; "W"] ->
  exists s, date_format tz c pattern r = VStr s.
Proof.
  intros Hc Hp.
  destruct (job_patterns_format pattern (Calendar.fields_of_millis tz (us ÷ 1000)) Hp)
    as [s Hs].
  exists s. now apply (date_format_timestamp tz us).
Qed.

Lemma log_schema_ok_elem (log : DataFrame) (r : Row) :
  log_schema_ok log = true -> r ∈ log -> has_col "start_time" r = false.
Proof.
  unfold log_schema_ok. rewrite forallb_forall. intros H Hin.
  apply list_elem_of_In, H in Hin. now apply negb_true_iff.
Qed.

(** The events of the converted log carry their timestamp in
    [start_time]. *)
Lemma event_has_start_time (tz : Z) (log events : DataFrame) (e : Row) :
  log_schema_ok log = true ->
  with_start_time tz (next_song log) = Ok events -> e ∈ events ->
  exists us, col "start_time" e = VTimestamp us /\ has_col "start_time" e = true.
Proof.
  intros Hs Hw Hin.
  destruct (with_start_time_elem tz log events e Hw Hin) as (r & us & Hr & _ & _ & ->).
  exists us. apply start_time_of_event. now apply (log_schema_ok_elem log).
Qed.

(** C10. The calendar fields are text, not numbers: in every row of the
    time table the hour, day, week, month, year and weekday columns hold
    strings, and so do the year and month columns of every row of the
    songplays table, all being outputs of [date_format]; for the sample
    event of November 2018 the year and month are the strings "2018" and
    "11", not the integers 2018 and 11. *)
Theorem calendar_fields_are_strings
    (tz : Z) (layout : DataFrame -> list DataFrame) (log song_df : DataFrame) :
  log_schema_ok log = true ->
  lays_out layout ->
  (forall t row c,
      time_of tz log = Ok t -> row ∈ t ->
      c ∈ ["hour"; "day"; "week"; "month"; "year"; "weekday"] ->
      exists s, col c row = VStr s)
  /\ (forall t row c,
      songplays_of tz layout log song_df = Ok t -> row ∈ t ->
      c ∈ ["year"; "month"] ->
      exists s, col c row = VStr s)
  /\ (time_of 0 [Sample.play] = Ok [Sample.time_row]
      /\ col "year" Sample.time_row = VStr "2018"
      /\ col "month" Sample.time_row = VStr "11"
      /\ col "year" Sample.time_row <> VLong 2018
      /\ col "month" Sample.time_row <> VLong 11).
Proof.
  intros Hschema Hlay. split; [|split].
  - intros t row c Ht Hin Hc. unfold time_of in Ht.
    destruct (with_start_time tz (next_song log)) as [events|] eqn:Hw; [|discriminate].
    injection Ht as <-.
    apply time_table_elem in Hin as (e & He & _ & HH & HD & Hwk & HM & Hy & HW).
    destruct (event_has_start_time tz log events e Hschema Hw He) as (us & Hus & _).
    assert (Hfmt : forall p, p ∈ ["H"; "D"; "w"; "M"; "y"; "W"] ->
                     exists s, date_format tz "start_time" p e = VStr s).
    { intros p Hp. now apply (date_format_is_string tz us). }
    repeat (apply elem_of_cons in Hc as [->|Hc]).
    + rewrite HH. apply Hfmt, list_elem_of_In. cbn. tauto.
    + rewrite HD. apply Hfmt, list_elem_of_In. cbn. tauto.
    + rewrite Hwk. apply Hfmt, list_elem_of_In. cbn. tauto.
    + rewrite HM. apply Hfmt, list_elem_of_In. cbn. tauto.
    + rewrite Hy. apply Hfmt, list_elem_of_In. cbn. tauto.
    + rewrite HW. apply Hfmt, list_elem_of_In. cbn. tauto.
    + inversion Hc.
  - intros t row c Ht Hin Hc. unfold songplays_of in Ht.
    destruct (with_start_time tz (next_song log)) as [events|] eqn:Hw; [|discriminate].
    injection Ht as <-. unfold songplays_table in Hin.
    apply (withColumn_id_elem _ _ _ _ Hlay) in Hin as (r0 & id & Hr0 & ->).
    apply songplays_joined_elem in Hr0 as (e & s & He & _ & _ & ->).
    destruct (event_has_start_time tz log events e Hschema Hw He) as (us & Hus & Hhas).
    assert (Hst : col "start_time" (e ++ s) = VTimestamp us)
      by (now rewrite col_app_l).
    repeat (apply elem_of_cons in Hc as [->|Hc]).
    + rewrite col_set_col_ne by discriminate.
      change (exists x, date_format tz "start_time" "y" (e ++ s) = VStr x).
      apply (date_format_is_string tz us); [assumption|].
      apply list_elem_of_In. cbn. tauto.
    + rewrite col_set_col_ne by discriminate.
      change (exists x, date_format tz "start_time" "M" (e ++ s) = VStr x).
      apply (date_format_is_string tz us); [assumption|].
      apply list_elem_of_In. cbn. tauto.
    + inversion Hc.
  - split; [vm_compute; reflexivity|]. repeat split; discriminate.
Qed.

Lemma one_partition_lays_out : lays_out Sample.one_partition.
Proof.
  intros df. unfold Sample.one_partition. cbn. rewrite app_nil_r. reflexivity.
Qed.

Lemma calendar_fields_are_strings_witness :
  log_schema_ok Sample.log = true
  /\ (exists s, col "hour" Sample.time_row = VStr s)
  /\ (forall t row, songplays_of 0 Sample.one_partition Sample.log Sample.songs = Ok t ->
        row ∈ t -> exists s, col "year" row = VStr s).
Proof.
  assert (Hs : log_schema_ok Sample.log = true) by reflexivity.
  destruct (calendar_fields_are_strings 0 Sample.one_partition Sample.log Sample.songs
              Hs one_partition_lays_out) as (Htime & Hplays & _).
  split; [exact Hs|]. split.
  - apply (Htime [Sample.time_row; Sample.time_row] Sample.time_row "hour").
    + vm_compute. reflexivity.
    + apply list_elem_of_here.
    + apply list_elem_of_here.
  - intros t row Ht Hin. apply (Hplays t row "year" Ht Hin).
    apply list_elem_of_here.
Defined.

(** ** The songplays table is the inner join on the title *)

Lemma holds_sql_eq (a b : Value) :
  holds (sql_eq a b) = negb (is_null a) && bool_decide (a = b).
Proof.
  destruct a, b; cbn; try reflexivity;
    try (symmetry; apply bool_decide_eq_false_2; discriminate);
    now destruct (bool_decide _).
Qed.

Lemma map_over_flat_map {A B C} (f : B -> C) (g : A -> list B) (l : list A) :
  List.map f (flat_map g l) = flat_map (fun x => List.map f (g x)) l.
Proof.
  induction l as [|x l IH]; [reflexivity|].
  cbn [flat_map]. now rewrite List.map_app, IH.
Qed.

(** The join of the job keeps, for each event, the songs the
    specification calls matching. *)
Lemma songplays_joined_matching (tz : Z) (df song_df : DataFrame) :
  songplays_joined tz df song_df
  = flat_map (fun e => List.map (fun s => eval_row (songplay_columns tz) (e ++ s))
                         (matching_songs e song_df)) df.
Proof.
  unfold songplays_joined, select, join.
  rewrite map_over_flat_map. apply flat_map_ext. intros e.
  rewrite List.map_map. unfold matching_songs. f_equal.
  apply List.filter_ext. intros s. apply holds_sql_eq.
Qed.

Lemma col_rename_other (c old new : string) (r : Row) :
  c <> old -> c <> new -> col c (rename_col old new r) = col c r.
Proof.
  intros Ho Hn. induction r as [|[k x] r IH]; [reflexivity|].
  rewrite rename_col_cons. destruct (String.eqb_spec k old) as [->|Hk].
  - rewrite !col_cons.
    destruct (String.eqb_spec new c); [congruence|].
    destruct (String.eqb_spec old c); [congruence|]. exact IH.
  - rewrite !col_cons. destruct (String.eqb_spec k c); [reflexivity|exact IH].
Qed.

Lemma drop_col_set_col (name : string) (v : Value) (r : Row) :
  has_col name r = false -> drop_col name (set_col name v r) = r.
Proof.
  intros Hno. induction r as [|[k x] r IH].
  - cbn. now rewrite String.eqb_refl.
  - rewrite has_col_cons in Hno. apply orb_false_elim in Hno as [Hk Hno].
    cbn [set_col]. rewrite String.eqb_sym in Hk. rewrite Hk.
    unfold drop_col. cbn [List.filter fst]. rewrite Hk. cbn [negb].
    f_equal. now apply IH.
Qed.

Lemma drop_col_number_rows (name : string) (p c : Z) (rows : DataFrame) :
  Forall (fun r => has_col name r = false) rows ->
  List.map (drop_col name) (number_rows name p c rows) = rows.
Proof.
  intros H. revert c. induction H as [|r rows Hr _ IH]; intros c; [reflexivity|].
  cbn. now rewrite drop_col_set_col, IH.
Qed.

Lemma drop_col_number_partitions (name : string) (p : Z) (parts : list DataFrame) :
  Forall (fun r => has_col name r = false) (concat parts) ->
  List.map (drop_col name) (concat (number_partitions name p parts)) = concat parts.
Proof.
  revert p. induction parts as [|part parts IH]; intros p H; [reflexivity|].
  cbn in *. apply Forall_app in H as [H1 H2].
  now rewrite List.map_app, drop_col_number_rows, IH.
Qed.

(** Apart from the identifiers and the order of the rows, the songplays
    table is the projected join. *)
Lemma songplays_table_joined (tz : Z) (layout : DataFrame -> list DataFrame)
    (df song_df : DataFrame) :
  lays_out layout ->
  Permutation (List.map (drop_col "songplay_id") (songplays_table tz layout df song_df))
              (songplays_joined tz df song_df).
Proof.
  intros Hlay. unfold songplays_table, withColumn_id.
  rewrite drop_col_number_partitions; [apply Hlay|].
  apply Forall_forall. intros r Hr.
  assert (Hj : r ∈ songplays_joined tz df song_df).
  { apply list_elem_of_In, (Permutation_in _ (Hlay _)), list_elem_of_In, Hr. }
  apply songplays_joined_elem in Hj as (e & s & _ & _ & _ & ->). reflexivity.
Qed.

(** Converting the timestamp leaves the song of an event alone, hence
    also the songs it matches. *)
Lemma with_start_time_matching (tz : Z) (df events song_df : DataFrame) :
  with_start_time tz df = Ok events ->
  Forall2 (fun r e => matching_songs e song_df = matching_songs r song_df) df events.
Proof.
  intros Hw. apply with_start_time_rows in Hw.
  induction Hw as [|r e df events (v & _ & ->) _ IH]; constructor; [|exact IH].
  unfold matching_songs.
  now rewrite col_rename_other, col_set_col_ne by discriminate.
Qed.

Lemma Forall2_map_eq {A B C} (f : A -> C) (g : B -> C) (l : list A) (l' : list B) :
  Forall2 (fun x y => g y = f x) l l' -> List.map g l' = List.map f l.
Proof. induction 1; cbn; [reflexivity|]. now f_equal. Qed.

(** C4. The songplays table is the inner join of the playback events
    with the song records on equality of the event's song and the
    record's title: up to the assigned identifiers and the order of rows
    it holds one row per pair of an event and a song matching it, so its
    size is the number of such pairs; a log of one playback event whose
    song is the title of exactly one record gives exactly one row, and one
    whose song matches no title gives none. *)
Theorem songplays_is_inner_join_on_title
    (tz : Z) (layout : DataFrame -> list DataFrame) (log song_df t : DataFrame) :
  lays_out layout ->
  songplays_of tz layout log song_df = Ok t ->
  exists events,
    with_start_time tz (next_song log) = Ok events
    /\ Forall2 (fun r e => matching_songs e song_df = matching_songs r song_df)
               (next_song log) events
    /\ Permutation
         (List.map (drop_col "songplay_id") t)
         (flat_map (fun e => List.map (fun s => eval_row (songplay_columns tz) (e ++ s))
                               (matching_songs e song_df)) events)
    /\ length t
       = list_sum (List.map (fun r => length (matching_songs r song_df)) (next_song log))
    /\ (forall r, next_song log = [r] ->
          (forall s, matching_songs r song_df = [s] -> exists row, t = [row])
          /\ (matching_songs r song_df = [] -> t = [])).
Proof.
  intros Hlay Ht. unfold songplays_of in Ht.
  destruct (with_start_time tz (next_song log)) as [events|] eqn:Hw; [|discriminate].
  injection Ht as <-. exists events.
  pose proof (with_start_time_matching tz _ _ song_df Hw) as Hmatch.
  pose proof (songplays_table_joined tz layout events song_df Hlay) as Hperm.
  rewrite songplays_joined_matching in Hperm.
  assert (Hlen : length (songplays_table tz layout events song_df)
                 = list_sum (List.map (fun r => length (matching_songs r song_df))
                               (next_song log))).
  { assert (Hmap : List.map (fun e => length (matching_songs e song_df)) events
                   = List.map (fun r => length (matching_songs r song_df)) (next_song log)).
    { apply (Forall2_map_eq (fun r => length (matching_songs r song_df))
                            (fun e => length (matching_songs e song_df))).
      eapply Forall2_impl; [exact Hmatch|]. cbn. intros r e ->. reflexivity. }
    rewrite <- Hmap.
    rewrite <- (length_map (drop_col "songplay_id")), (Permutation_length Hperm).
    rewrite length_flat_map. f_equal.
    apply List.map_ext. intros e. apply length_map. }
  split; [reflexivity|]. split; [exact Hmatch|]. split; [exact Hperm|].
  split; [exact Hlen|].
  intros r Hr. rewrite Hr in Hlen. cbn [List.map list_sum] in Hlen. split.
  - intros s Hs. rewrite Hs in Hlen. cbn in Hlen.
    destruct (songplays_table tz layout events song_df) as [|row [|]]; try discriminate.
    now exists row.
  - intros Hnone. rewrite Hnone in Hlen. cbn in Hlen.
    now apply length_zero_iff_nil.
Qed.

Lemma songplays_is_inner_join_on_title_witness :
  exists t,
    songplays_of 0 Sample.one_partition Sample.log Sample.songs = Ok t
    /\ length t
       = list_sum (List.map (fun r => length (matching_songs r Sample.songs))
                     (next_song Sample.log))
    /\ length t = 1%nat.
Proof.
  eexists. split; [vm_compute; reflexivity|].
  match goal with
  | |- length ?t = _ /\ _ =>
      destruct (songplays_is_inner_join_on_title 0 Sample.one_partition
                  Sample.log Sample.songs t one_partition_lays_out)
        as (events & _ & _ & _ & Hlen & _); [vm_compute; reflexivity|]
  end.
  split; [exact Hlen|reflexivity].
Defined.


(** ** Identifiers of the songplays table *)

Lemma monotonically_increasing_id_inj (p p' k k' : Z) :
  0 <= p < 2 ^ 31 -> 0 <= p' < 2 ^ 31 ->
  0 <= k < 2 ^ 33 -> 0 <= k' < 2 ^ 33 ->
  monotonically_increasing_id p k = monotonically_increasing_id p' k' ->
  p = p' /\ k = k'.
Proof.
  unfold monotonically_increasing_id, wrap64.
  rewrite !Z.shiftl_mul_pow2 by lia.
  change (2 ^ 31) with 2147483648. change (2 ^ 33) with 8589934592.
  change (2 ^ 63) with 9223372036854775808.
  change (2 ^ 64) with 18446744073709551616.
  intros Hp Hp' Hk Hk' H. div_lia.
Qed.

Lemma number_rows_ids (name : string) (p c : Z) (rows : DataFrame) (v : Value) :
  v ∈ List.map (col name) (number_rows name p c rows) ->
  exists k, c <= k < c + Z.of_nat (length rows)
            /\ v = VLong (monotonically_increasing_id p k).
Proof.
  revert c. induction rows as [|r rows IH]; intros c Hin.
  - inversion Hin.
  - cbn [number_rows List.map] in Hin. rewrite col_set_col_eq in Hin.
    apply elem_of_cons in Hin as [->|Hin].
    + exists c. split; [cbn [length]; lia|reflexivity].
    + destruct (IH _ Hin) as (k & Hk & ->). exists k.
      split; [cbn [length]; lia|reflexivity].
Qed.

Lemma number_rows_NoDup (name : string) (p c : Z) (rows : DataFrame) :
  0 <= p < 2 ^ 31 -> 0 <= c -> c + Z.of_nat (length rows) <= 2 ^ 33 ->
  NoDup (List.map (col name) (number_rows name p c rows)).
Proof.
  intros Hp. revert c. induction rows as [|r rows IH]; intros c Hc Hlen.
  - constructor.
  - cbn [number_rows List.map]. rewrite col_set_col_eq.
    cbn [length] in Hlen. constructor.
    + intros Hin. apply number_rows_ids in Hin as (k & Hk & Heq).
      injection Heq as Heq.
      apply monotonically_increasing_id_inj in Heq; lia.
    + apply IH; lia.
Qed.

Lemma number_partitions_ids (name : string) (p : Z) (parts : list DataFrame) (v : Value) :
  Forall (fun part => Z.of_nat (length part) <= 2 ^ 33) parts ->
  v ∈ List.map (col name) (concat (number_partitions name p parts)) ->
  exists q k, p <= q < p + Z.of_nat (length parts) /\ 0 <= k < 2 ^ 33
              /\ v = VLong (monotonically_increasing_id q k).
Proof.
  intros Hsz. revert p. induction Hsz as [|part parts Hpart _ IH]; intros p Hin.
  - inversion Hin.
  - cbn [number_partitions concat] in Hin. rewrite List.map_app in Hin.
    apply elem_of_app in Hin as [Hin|Hin].
    + apply number_rows_ids in Hin as (k & Hk & ->).
      exists p, k. split; [cbn [length]; lia|]. split; [lia|reflexivity].
    + destruct (IH _ Hin) as (q & k & Hq & Hk & ->).
      exists q, k. split; [cbn [length]; lia|]. split; [lia|reflexivity].
Qed.

Lemma number_partitions_NoDup (name : string) (p : Z) (parts : list DataFrame) :
  0 <= p -> p + Z.of_nat (length parts) <= 2 ^ 31 ->
  Forall (fun part => Z.of_nat (length part) <= 2 ^ 33) parts ->
  NoDup (List.map (col name) (concat (number_partitions name p parts))).
Proof.
  intros Hp Hn Hsz. revert p Hp Hn.
  induction Hsz as [|part parts Hpart Hparts IH]; intros p Hp Hn.
  - constructor.
  - cbn [number_partitions concat]. rewrite List.map_app.
    cbn [length] in Hn. apply NoDup_app. split; [|split].
    + apply number_rows_NoDup; lia.
    + intros v Hv Hv'.
      apply number_rows_ids in Hv as (k & Hk & ->).
      apply (number_partitions_ids _ _ _ _ Hparts) in Hv' as (q & k' & Hq & Hk' & Heq).
      injection Heq as Heq.
      apply monotonically_increasing_id_inj in Heq; lia.
    + apply IH; lia.
Qed.

(** C9. Within a run the identifiers of the songplays table are pairwise
    distinct, whatever the placement of the rows, as long as the
    placement stays within the range the generator is built for (fewer
    than 2^31 partitions of at most 2^33 rows).  They need not be
    contiguous nor the same from run to run: two rows placed in two
    partitions get 0 and 8589934592, placed in one partition 0 and 1. *)
Theorem songplay_ids_are_distinct
    (tz : Z) (layout : DataFrame -> list DataFrame) (log song_df events t : DataFrame) :
  with_start_time tz (next_song log) = Ok events ->
  within_id_range (layout (songplays_joined tz events song_df)) ->
  songplays_of tz layout log song_df = Ok t ->
  NoDup (List.map (col "songplay_id") t)
  /\ (exists t2, songplays_of 0 Sample.row_per_partition Sample.two_plays Sample.songs = Ok t2
        /\ List.map (col "songplay_id") t2 = [VLong 0; VLong 8589934592])
  /\ (exists t1, songplays_of 0 Sample.one_partition Sample.two_plays Sample.songs = Ok t1
        /\ List.map (col "songplay_id") t1 = [VLong 0; VLong 1]).
Proof.
  intros Hw [Hn Hsz] Ht. split; [|split].
  - unfold songplays_of in Ht. rewrite Hw in Ht.
    injection Ht as <-. unfold songplays_table, withColumn_id.
    apply number_partitions_NoDup; [lia|lia|exact Hsz].
  - eexists. split; vm_compute; reflexivity.
  - eexists. split; vm_compute; reflexivity.
Qed.

Lemma songplay_ids_are_distinct_witness :
  exists events t,
    with_start_time 0 (next_song Sample.two_plays) = Ok events
    /\ within_id_range
         (Sample.row_per_partition (songplays_joined 0 events Sample.songs))
    /\ songplays_of 0 Sample.row_per_partition Sample.two_plays Sample.songs = Ok t
    /\ NoDup (List.map (col "songplay_id") t).
Proof.
  eexists. eexists.
  assert (Hw : with_start_time 0 (next_song Sample.two_plays)
               = Ok [ rename_col "ts" "start_time"
                        (set_col "ts" (VTimestamp 1542241826796000) Sample.play);
                      rename_col "ts" "start_time"
                        (set_col "ts" (VTimestamp 259200000000) Sample.play_sunday) ])
    by (vm_compute; reflexivity).
  split; [exact Hw|].
  match goal with
  | |- within_id_range ?parts /\ _ =>
      assert (Hr : within_id_range parts)
        by (split; [vm_compute; discriminate
                   |repeat constructor; vm_compute; discriminate])
  end.
  split; [exact Hr|].
  assert (Ht : songplays_of 0 Sample.row_per_partition Sample.two_plays Sample.songs
               = Ok (songplays_table 0 Sample.row_per_partition
                       [ rename_col "ts" "start_time"
                           (set_col "ts" (VTimestamp 1542241826796000) Sample.play);
                         rename_col "ts" "start_time"
                           (set_col "ts" (VTimestamp 259200000000) Sample.play_sunday) ]
                       Sample.songs))
    by (unfold songplays_of; rewrite Hw; reflexivity).
  split; [exact Ht|].
  exact (proj1 (songplay_ids_are_distinct 0 Sample.row_per_partition Sample.two_plays
                  Sample.songs _ _ Hw Hr Ht)).
Defined.

(** ** Runs of the job *)

Lemma load_json_run (spark : SparkSession) (path : string) (w : World) :
  load_json spark path w
  = (match files w !! path with
     | Some st => Ok (content st)
     | None => Err (PathNotFound path)
     end,
     {| files := files w; leftovers := leftovers w; trace := trace w ++ [Load path] |}).
Proof.
  unfold load_json, bind, emit. cbn. now destruct (files w !! path).
Qed.

Lemma parquet_run (wr : DataFrameWriter) (path : string) (w : World) :
  parquet wr path w
  = if path_exists (files w) (leftovers w) path
    then (Err (PathAlreadyExists path),
          {| files := files w; leftovers := leftovers w;
             trace := trace w ++ [Save path (w_partition_by wr)] |})
    else
      match w_df wr with
      | Ok rows =>
          (Ok tt,
           {| files := <[path := {| partitioning := w_partition_by wr; content := rows |}]>
                         (files w);
              leftovers := leftovers w;
              trace := trace w ++ [Save path (w_partition_by wr)] |})
      | Err e =>
          (Err e,
           {| files := files w; leftovers := path :: leftovers w;
              trace := trace w ++ [Save path (w_partition_by wr)] |})
      end.
Proof.
  unfold parquet, bind, emit. cbn.
  destruct (path_exists (files w) (leftovers w) path); [reflexivity|].
  now destruct (w_df wr).
Qed.

(** A table stored at one path does not put anything at another. *)
Lemma path_exists_insert_ne (fs : gmap string Stored) (ls : list string)
    (p q : string) (st : Stored) :
  q <> p -> path_exists (<[q := st]> fs) ls p = path_exists fs ls p.
Proof. intros Hne. unfold path_exists. now rewrite lookup_insert_ne. Qed.

Lemma path_exists_false (fs : gmap string Stored) (ls : list string) (p : string) :
  path_exists fs ls p = false -> fs !! p = None /\ p ∉ ls.
Proof.
  unfold path_exists. destruct (fs !! p); [discriminate|].
  intros H. apply bool_decide_eq_false in H. auto.
Qed.

Lemma path_exists_stored (fs : gmap string Stored) (ls : list string) (p : string)
    (st : Stored) :
  fs !! p = Some st -> path_exists fs ls p = true.
Proof. unfold path_exists. now intros ->. Qed.

Lemma paths_of_main :
  os_path_join "s3a://udacity-dend/" "log_data/*/*" = log_path
  /\ os_path_join "s3a://udacity-dend/" "song_data/*/*/*" = song_path
  /\ os_path_join "analytics" "user_table_parquet" = users_out
  /\ os_path_join "analytics" "time_table_parquet" = time_out
  /\ os_path_join "analytics" "songplay_table_parquet" = songplays_out
  /\ os_path_join "analytics" "songs_table_parquet" = songs_out
  /\ os_path_join "analytics" "artist_table_parquet" = artists_out.
Proof. repeat split. Qed.

Ltac ne_paths := apply String.eqb_neq; reflexivity.

Ltac untouched := intros; rewrite ?lookup_insert_ne by (assumption || congruence); reflexivity.

Ltac failed_run k :=
  exists k; cbn [fst snd files trace is_ok]; rewrite <- ?app_assoc;
  split; [lia|]; split; [reflexivity|]; split; [untouched|discriminate].

Ltac step_load :=
  rewrite load_json_run; cbn [files leftovers trace fst snd];
  rewrite ?lookup_insert_ne by ne_paths.

Ltac step_save :=
  rewrite parquet_run;
  cbn [files leftovers trace fst snd w_partition_by w_df partitionBy write];
  rewrite ?path_exists_insert_ne by ne_paths.

Ltac step_check k :=
  match goal with
  | |- context [lift ?c] =>
      destruct c eqn:?; cbn [lift ret raise]; [|failed_run k]
  end.

Ltac step_exists k :=
  match goal with
  | |- context [path_exists ?fs ?ls ?p] =>
      destruct (path_exists fs ls p) eqn:?; [failed_run k|]
  end.

Lemma process_song_data_run (w : World) :
  let r := process_song_data Session "s3a://udacity-dend/" "analytics" w in
  exists n, (n <= 3)%nat
    /\ trace (snd r) = trace w ++ take n song_stage_events
    /\ (forall p, p <> songs_out -> p <> artists_out -> files (snd r) !! p = files w !! p)
    /\ (is_ok (fst r) = true ->
        n = 3%nat
        /\ partitioning <$> files (snd r) !! songs_out = Some ["artist_id"; "year"]
        /\ partitioning <$> files (snd r) !! artists_out = Some []).
Proof.
  unfold process_song_data.
  change (os_path_join "s3a://udacity-dend/" "song_data/*/*/*") with song_path.
  change (os_path_join "analytics" "songs_table_parquet") with songs_out.
  change (os_path_join "analytics" "artist_table_parquet") with artists_out.
  unfold bind. step_load.
  destruct (files w !! song_path) as [st|] eqn:Hsong; [|failed_run 1%nat].
  step_check 1%nat.
  step_save. step_exists 2%nat.
  step_check 2%nat.
  step_save. step_exists 3%nat.
  exists 3%nat. cbn [fst snd files trace is_ok]. rewrite <- !app_assoc.
  split; [lia|]. split; [reflexivity|]. split; [untouched|].
  intros _. split; [reflexivity|]. split.
  - rewrite lookup_insert_ne by ne_paths. now rewrite lookup_insert_eq.
  - now rewrite lookup_insert_eq.
Qed.

Lemma process_log_data_run (tz : Z) (layout : DataFrame -> list DataFrame) (w : World) :
  let r := process_log_data tz layout Session "s3a://udacity-dend/" "analytics" w in
  exists n, (n <= 5)%nat
    /\ trace (snd r) = trace w ++ take n log_stage_events
    /\ (forall p, p <> users_out -> p <> time_out -> p <> songplays_out ->
        files (snd r) !! p = files w !! p)
    /\ (is_ok (fst r) = true ->
        n = 5%nat
        /\ partitioning <$> files (snd r) !! users_out = Some []
        /\ partitioning <$> files (snd r) !! time_out = Some []
        /\ partitioning <$> files (snd r) !! songplays_out = Some ["year"; "month"]).
Proof.
  unfold process_log_data.
  change (os_path_join "s3a://udacity-dend/" "log_data/*/*") with log_path.
  change (os_path_join "s3a://udacity-dend/" "song_data/*/*/*") with song_path.
  change (os_path_join "analytics" "user_table_parquet") with users_out.
  change (os_path_join "analytics" "time_table_parquet") with time_out.
  change (os_path_join "analytics" "songplay_table_parquet") with songplays_out.
  unfold bind. step_load.
  destruct (files w !! log_path) as [st|] eqn:Hlog; [|failed_run 1%nat].
  step_check 1%nat. step_check 1%nat.
  step_save. step_exists 2%nat.
  step_check 2%nat. step_check 2%nat.
  step_save. step_exists 3%nat.
  destruct (with_start_time tz (next_song (content st))) as [df|e] eqn:Hw;
    cbn [rmap]; [|failed_run 3%nat].
  step_load.
  destruct (files w !! song_path) as [sg|] eqn:Hsong; [|failed_run 4%nat].
  step_check 4%nat. step_check 4%nat. step_check 4%nat.
  step_save. step_exists 5%nat.
  exists 5%nat. cbn [fst snd files trace is_ok]. rewrite <- !app_assoc.
  split; [lia|]. split; [reflexivity|]. split; [untouched|].
  intros _. split; [reflexivity|]. split; [|split].
  - rewrite !lookup_insert_ne by ne_paths. now rewrite lookup_insert_eq.
  - rewrite !lookup_insert_ne by ne_paths. now rewrite lookup_insert_eq.
  - now rewrite lookup_insert_eq.
Qed.

Lemma main_unfold (tz : Z) (layout : DataFrame -> list DataFrame) (w : World) :
  main tz layout w
  = match log_stage tz layout w with
    | (Ok _, w1) => process_song_data Session "s3a://udacity-dend/" "analytics" w1
    | (Err e, w1) => (Err e, w1)
    end.
Proof. reflexivity. Qed.

Lemma take_run_events_log (n : nat) :
  (n <= 5)%nat ->
  [GetOrCreateSession] ++ take n log_stage_events = take (S n) run_events.
Proof.
  intros Hn. unfold run_events. cbn [take app].
  f_equal. rewrite take_app_le; [reflexivity|]. cbn. lia.
Qed.

Lemma main_outcome (tz : Z) (layout : DataFrame -> list DataFrame) (w : World) :
  let r := main tz layout w in
  let l := log_stage tz layout w in
  exists n, (1 <= n <= 9)%nat
    /\ trace (snd r) = trace w ++ take n run_events
    /\ (forall e, fst l = Err e ->
          r = (Err e, snd l) /\ (n <= 6)%nat
          /\ files (snd r) !! songs_out = files w !! songs_out
          /\ files (snd r) !! artists_out = files w !! artists_out)
    /\ (is_ok (fst l) = true ->
          r = process_song_data Session "s3a://udacity-dend/" "analytics" (snd l)
          /\ trace (snd l) = trace w ++ take 6 run_events /\ (6 <= n)%nat)
    /\ (is_ok (fst r) = true ->
          n = 9%nat
          /\ partitioning <$> files (snd r) !! users_out = Some []
          /\ partitioning <$> files (snd r) !! time_out = Some []
          /\ partitioning <$> files (snd r) !! songplays_out = Some ["year"; "month"]
          /\ partitioning <$> files (snd r) !! songs_out = Some ["artist_id"; "year"]
          /\ partitioning <$> files (snd r) !! artists_out = Some []).
Proof.
  intros r l. subst r. rewrite main_unfold. fold l.
  destruct (process_log_data_run tz layout (snd (create_spark_session w)))
    as (n1 & Hn1 & Htr1 & Hkeep1 & Hok1).
  fold (log_stage tz layout w) in Htr1, Hkeep1, Hok1. fold l in Htr1, Hkeep1, Hok1.
  change (trace (snd (create_spark_session w))) with (trace w ++ [GetOrCreateSession]) in Htr1.
  change (files (snd (create_spark_session w))) with (files w) in Hkeep1.
  rewrite <- app_assoc, (take_run_events_log n1 Hn1) in Htr1.
  destruct l as [[[]|e] w1]; cbn [fst snd is_ok] in *.
  - destruct (Hok1 eq_refl) as (-> & Hu & Ht & Hsp).
    destruct (process_song_data_run w1) as (n2 & Hn2 & Htr2 & Hkeep2 & Hok2).
    exists (6 + n2)%nat. split; [lia|]. split.
    { rewrite Htr2, Htr1, <- app_assoc. reflexivity. }
    split; [discriminate|]. split; [intros _; repeat split; [assumption|lia]|].
    intros Hok. destruct (Hok2 Hok) as (-> & Hso & Har).
    split; [reflexivity|].
    rewrite !Hkeep2 by (apply String.eqb_neq; reflexivity). auto.
  - exists (S n1). split; [lia|]. split; [exact Htr1|]. split.
    + intros e' He'. injection He' as <-. split; [reflexivity|]. split; [lia|].
      split; apply Hkeep1; apply String.eqb_neq; reflexivity.
    + split; discriminate.
Qed.

Lemma elem_of_take_list {A} (n : nat) (l : list A) (x : A) : x ∈ take n l -> x ∈ l.
Proof.
  intros H. rewrite <- (take_drop n l). apply elem_of_app. now left.
Qed.

Lemma events_since_app (w w' : World) (evs : list Event) :
  trace w' = trace w ++ evs -> events_since w w' = evs.
Proof. intros H. unfold events_since. rewrite H. apply drop_app_length. Qed.

(** ** Partitioning of the written tables *)

(** C7. Every write of a run carries the partitioning of its table: the
    songs table is written partitioned by (artist_id, year), the songplays
    table by (year, month), and the users, artists and time tables with no
    partitioning; a run that succeeds makes all five writes and leaves the
    five tables stored that way. *)
Theorem tables_written_with_partitioning
    (tz : Z) (layout : DataFrame -> list DataFrame) (w : World) :
  let r := main tz layout w in
  (forall path cols,
      Save path cols ∈ events_since w (snd r) ->
      path ∈ [users_out; time_out; songplays_out; songs_out; artists_out]
      /\ cols = declared_partitioning path)
  /\ declared_partitioning songs_out = ["artist_id"; "year"]
  /\ declared_partitioning songplays_out = ["year"; "month"]
  /\ declared_partitioning users_out = []
  /\ declared_partitioning artists_out = []
  /\ declared_partitioning time_out = []
  /\ (is_ok (fst r) = true ->
      events_since w (snd r) = run_events
      /\ forall path,
          path ∈ [users_out; time_out; songplays_out; songs_out; artists_out] ->
          partitioning <$> files (snd r) !! path = Some (declared_partitioning path)).
Proof.
  intros r.
  destruct (main_outcome tz layout w) as (n & Hn & Htr & _ & _ & Hok). fold r in Htr, Hok.
  apply events_since_app in Htr.
  split; [|repeat (split; [reflexivity|])].
  - intros path cols Hin. rewrite Htr in Hin. apply elem_of_take_list in Hin.
    unfold run_events, log_stage_events, song_stage_events in Hin. cbn [app] in Hin.
    repeat (apply elem_of_cons in Hin as [Hin|Hin];
            [first [discriminate Hin
                   |injection Hin as -> ->; split;
                    [apply list_elem_of_In; cbn; tauto|reflexivity]]|]).
    inversion Hin.
  - intros Hr. destruct (Hok Hr) as (-> & Hu & Ht & Hsp & Hso & Har).
    split; [exact Htr|].
    intros path Hp.
    repeat (apply elem_of_cons in Hp as [->|Hp]; [assumption|]).
    inversion Hp.
Qed.

Lemma tables_written_with_partitioning_witness :
  is_ok (fst (main 0 Sample.one_partition Sample.world)) = true
  /\ events_since Sample.world (snd (main 0 Sample.one_partition Sample.world)) = run_events
  /\ partitioning <$> files (snd (main 0 Sample.one_partition Sample.world)) !! songs_out
     = Some ["artist_id"; "year"]
  /\ partitioning <$> files (snd (main 0 Sample.one_partition Sample.world)) !! time_out
     = Some [].
Proof.
  assert (Hok : is_ok (fst (main 0 Sample.one_partition Sample.world)) = true)
    by (vm_compute; reflexivity).
  destruct (tables_written_with_partitioning 0 Sample.one_partition Sample.world)
    as (_ & _ & _ & _ & _ & _ & Hrun).
  destruct (Hrun Hok) as [Hev Hfiles].
  split; [exact Hok|]. split; [exact Hev|]. split.
  - apply (Hfiles songs_out). apply list_elem_of_In. cbn. tauto.
  - apply (Hfiles time_out). apply list_elem_of_In. cbn. tauto.
Defined.

(** ** Orchestration: order and failure *)

(** C8. [main] obtains one session, then runs the log transform and
    only then the song transform.  Every error is fatal: when the log
    transform fails, [main] fails with that error in the state the log
    transform left, the exit status is 1, and no call of the song
    transform has been made (the calls made are a prefix of those of the
    session and the log transform; the songs and artists outputs are
    untouched); when the log transform succeeds, its five calls come
    first and [main] ends as the song transform does, failing with exit
    status 1 if that one fails.  Nothing is retried: the calls of a run
    are an initial part of the fixed sequence of nine calls. *)
Theorem every_error_is_fatal
    (tz : Z) (layout : DataFrame -> list DataFrame) (w : World) :
  let r := main tz layout w in
  let l := log_stage tz layout w in
  (exists n rest,
      events_since w (snd r) = take n run_events
      /\ events_since w (snd r) = GetOrCreateSession :: rest
      /\ GetOrCreateSession ∉ rest)
  /\ (forall e, fst l = Err e ->
        r = (Err e, snd l)
        /\ exit_status r = 1
        /\ events_since w (snd r) `prefix_of` GetOrCreateSession :: log_stage_events
        /\ (forall cols, Save songs_out cols ∉ events_since w (snd r))
        /\ (forall cols, Save artists_out cols ∉ events_since w (snd r))
        /\ files (snd r) !! songs_out = files w !! songs_out
        /\ files (snd r) !! artists_out = files w !! artists_out)
  /\ (is_ok (fst l) = true ->
        r = process_song_data Session "s3a://udacity-dend/" "analytics" (snd l)
        /\ events_since w (snd l) = GetOrCreateSession :: log_stage_events
        /\ GetOrCreateSession :: log_stage_events `prefix_of` events_since w (snd r))
  /\ (forall e, fst r = Err e -> exit_status r = 1)
  /\ (is_ok (fst r) = true -> is_ok (fst l) = true /\ exit_status r = 0).
Proof.
  intros r l.
  destruct (main_outcome tz layout w) as (n & Hn & Htr & Hfail & Hlog & Hok).
  fold r in Htr, Hfail, Hlog, Hok. fold l in Hfail, Hlog.
  apply events_since_app in Htr.
  split; [|split; [|split; [|split]]].
  - exists n. destruct n as [|n]; [lia|].
    exists (take n (log_stage_events ++ song_stage_events)).
    split; [exact Htr|]. split; [exact Htr|].
    intros Hin. apply elem_of_take_list in Hin.
    unfold log_stage_events, song_stage_events in Hin. cbn [app] in Hin.
    repeat (apply elem_of_cons in Hin as [Hin|Hin]; [discriminate Hin|]).
    inversion Hin.
  - intros e He. destruct (Hfail e He) as (Hr & Hn6 & Hso & Har).
    assert (Hpre : events_since w (snd r) `prefix_of` GetOrCreateSession :: log_stage_events).
    { rewrite Htr.
      replace (take n run_events) with (take n (GetOrCreateSession :: log_stage_events)).
      - apply prefix_take.
      - unfold run_events. rewrite app_comm_cons. symmetry. apply take_app_le. cbn. lia. }
    assert (Hnone : forall ev, ev ∈ events_since w (snd r) ->
                      ev ∈ GetOrCreateSession :: log_stage_events).
    { intros ev Hev. destruct Hpre as [k Hk]. rewrite Hk. apply elem_of_app. now left. }
    split; [exact Hr|]. split; [unfold exit_status; now rewrite Hr|].
    split; [exact Hpre|].
    split; [|split; [|split; assumption]].
    + intros cols Hin. apply Hnone in Hin. unfold log_stage_events in Hin.
      repeat (apply elem_of_cons in Hin as [Hin|Hin]; [discriminate Hin|]).
      inversion Hin.
    + intros cols Hin. apply Hnone in Hin. unfold log_stage_events in Hin.
      repeat (apply elem_of_cons in Hin as [Hin|Hin]; [discriminate Hin|]).
      inversion Hin.
  - intros Hl. destruct (Hlog Hl) as (Hr & Htl & Hn6).
    split; [exact Hr|]. split; [now apply events_since_app|].
    rewrite Htr. exists (drop 6 (take n run_events)).
    change (GetOrCreateSession :: log_stage_events) with (take 6 run_events).
    rewrite <- (take_drop 6 (take n run_events)) at 1.
    f_equal. rewrite take_take. f_equal. lia.
  - intros e He. unfold exit_status. now rewrite He.
  - intros Hr. split.
    + destruct (fst l) as [|e] eqn:Hl; [reflexivity|].
      destruct (Hfail e eq_refl) as (Heq & _). rewrite Heq in Hr. discriminate Hr.
    + unfold exit_status. now destruct (fst r).
Qed.

Lemma every_error_is_fatal_witness :
  fst (log_stage 0 Sample.one_partition Sample.world_bad_ts)
  = Err (TypeError "unsupported operand type(s) for /: 'NoneType' and 'float'")
  /\ exit_status (main 0 Sample.one_partition Sample.world_bad_ts) = 1
  /\ files (snd (main 0 Sample.one_partition Sample.world_bad_ts)) !! songs_out = None
  /\ is_ok (fst (log_stage 0 Sample.one_partition Sample.world)) = true
  /\ exit_status (main 0 Sample.one_partition Sample.world) = 0.
Proof.
  assert (Hbad : fst (log_stage 0 Sample.one_partition Sample.world_bad_ts)
                 = Err (TypeError "unsupported operand type(s) for /: 'NoneType' and 'float'"))
    by (vm_compute; reflexivity).
  assert (Hgood : is_ok (fst (main 0 Sample.one_partition Sample.world)) = true)
    by (vm_compute; reflexivity).
  destruct (every_error_is_fatal 0 Sample.one_partition Sample.world_bad_ts)
    as (_ & Hfail & _).
  destruct (Hfail _ Hbad) as (_ & Hexit & _ & _ & _ & Hso & _).
  destruct (every_error_is_fatal 0 Sample.one_partition Sample.world)
    as (_ & _ & _ & _ & Hdone).
  destruct (Hdone Hgood) as [Hl Hzero].
  split; [exact Hbad|]. split; [exact Hexit|].
  split; [rewrite Hso; reflexivity|]. split; [exact Hl|exact Hzero].
Defined.

(** ** Rows and columns of the keyed tables *)

Lemma names_of_eval_row (es : list NamedExpr) (r : Row) :
  List.map fst (eval_row es r) = List.map fst es.
Proof. unfold eval_row. rewrite List.map_map. reflexivity. Qed.

Lemma names_of_named (cols : list string) : List.map fst (List.map named cols) = cols.
Proof. induction cols as [|c cols IH]; cbn; [reflexivity|now f_equal]. Qed.

(** A row of a keyed table is the projection of a record of the input,
    and its key is not null. *)
Lemma keyed_table_elem (c : string) (cols : list string) (df : DataFrame) (row : Row) :
  row ∈ dropna [c] (dropDuplicates [c] (select (List.map named cols) df)) ->
  exists r, r ∈ df /\ row = eval_row (List.map named cols) r /\ col c row <> VNull.
Proof.
  unfold dropna, dropDuplicates. intros Hin.
  apply list_elem_of_In, filter_In in Hin as [Hin Hnn].
  apply list_elem_of_In, dedup_from_elem in Hin as [Hin _].
  apply elem_of_select in Hin as (r & Hr & ->).
  exists r. split; [assumption|]. split; [reflexivity|].
  intros Hnull. cbn in Hnn. rewrite Hnull in Hnn. discriminate.
Qed.

Lemma names_of_set_col (name : string) (v : Value) (r : Row) :
  has_col name r = false -> List.map fst (set_col name v r) = List.map fst r ++ [name].
Proof.
  intros Hno. induction r as [|[k x] r IH]; [reflexivity|].
  rewrite has_col_cons in Hno. apply orb_false_elim in Hno as [Hk Hno].
  cbn [set_col]. rewrite String.eqb_sym in Hk. rewrite Hk. cbn. f_equal. now apply IH.
Qed.

(** X1. Each table has exactly its columns, in order: the songs, artists
    and users tables the selected columns, the time table start_time and
    the six calendar fields, the songplays table its ten selected columns
    followed by songplay_id. *)
Theorem table_schemas
    (tz : Z) (layout : DataFrame -> list DataFrame) (log df_song : DataFrame) :
  lays_out layout ->
  (forall row, row ∈ songs_table df_song -> List.map fst row = song_columns)
  /\ (forall row, row ∈ artists_table df_song -> List.map fst row = artist_columns)
  /\ (forall row, row ∈ users_of log -> List.map fst row = user_columns)
  /\ (forall t row, time_of tz log = Ok t -> row ∈ t ->
        List.map fst row
        = ["start_time"; "hour"; "day"; "week"; "month"; "year"; "weekday"])
  /\ (forall t row, songplays_of tz layout log df_song = Ok t -> row ∈ t ->
        List.map fst row
        = ["start_time"; "userId"; "level"; "song_id"; "artist_id"; "sessionId";
           "location"; "userAgent"; "year"; "month"; "songplay_id"]).
Proof.
  intros Hlay. repeat split.
  - intros row Hin. apply keyed_table_elem in Hin as (r & _ & -> & _).
    now rewrite names_of_eval_row, names_of_named.
  - intros row Hin. apply keyed_table_elem in Hin as (r & _ & -> & _).
    now rewrite names_of_eval_row, names_of_named.
  - intros row Hin. apply keyed_table_elem in Hin as (r & _ & -> & _).
    now rewrite names_of_eval_row, names_of_named.
  - intros t row Ht Hin. unfold time_of in Ht.
    destruct (with_start_time tz (next_song log)) as [events|]; [|discriminate].
    injection Ht as <-. apply elem_of_select in Hin as (e & _ & ->).
    now rewrite names_of_eval_row.
  - intros t row Ht Hin. unfold songplays_of in Ht.
    destruct (with_start_time tz (next_song log)) as [events|]; [|discriminate].
    injection Ht as <-.
    apply (withColumn_id_elem _ _ _ _ Hlay) in Hin as (r0 & id & Hr0 & ->).
    apply songplays_joined_elem in Hr0 as (e & s & _ & _ & _ & ->).
    rewrite names_of_set_col by reflexivity.
    now rewrite names_of_eval_row.
Qed.

Lemma table_schemas_witness :
  List.map fst (eval_row (List.map named song_columns)
                  (Sample.song_record "SOZCTXZ12AB0182364" "Setanta matins"
                     "AR5KOSW1187FB35FF4"))
  = song_columns
  /\ List.map fst Sample.songplay_row
     = ["start_time"; "userId"; "level"; "song_id"; "artist_id"; "sessionId";
        "location"; "userAgent"; "year"; "month"; "songplay_id"].
Proof.
  destruct (table_schemas 0 Sample.one_partition Sample.log Sample.songs
              one_partition_lays_out) as (Hsongs & _ & _ & _ & Hplays).
  split.
  - apply Hsongs. vm_compute. apply list_elem_of_here.
  - apply (Hplays [Sample.songplay_row]); [vm_compute; reflexivity|].
    apply list_elem_of_here.
Defined.

(** X2. The songs table refers to the artists table: every row of the
    songs table is the projection of a song record, and when its
    artist_id is not null the artists table built from the same song data
    has exactly one row with that artist_id. *)
Theorem songs_refer_to_artists (df_song : DataFrame) (row : Row) :
  row ∈ songs_table df_song ->
  (exists r, r ∈ df_song /\ row = eval_row (List.map named song_columns) r
             /\ col "song_id" r <> VNull)
  /\ (col "artist_id" row <> VNull ->
      count_rows "artist_id" (col "artist_id" row) (artists_table df_song) = 1%nat).
Proof.
  intros Hin. apply keyed_table_elem in Hin as (r & Hr & -> & Hnn).
  assert (Hs : "song_id" ∈ song_columns) by (apply list_elem_of_In; cbn; auto).
  assert (Ha : "artist_id" ∈ song_columns) by (apply list_elem_of_In; cbn; auto).
  rewrite (col_eval_row_named _ _ _ Hs) in Hnn.
  rewrite (col_eval_row_named _ _ _ Ha).
  split; [exists r; auto|].
  intros Hart. apply keyed_table_count; [|assumption|assumption].
  apply list_elem_of_In. cbn. auto.
Qed.

Lemma songs_refer_to_artists_witness :
  exists row,
    row ∈ songs_table Sample.songs
    /\ count_rows "artist_id" (col "artist_id" row) (artists_table Sample.songs) = 1%nat.
Proof.
  exists (eval_row (List.map named song_columns)
            (Sample.song_record "SOZCTXZ12AB0182364" "Setanta matins" "AR5KOSW1187FB35FF4")).
  assert (Hin : eval_row (List.map named song_columns)
                  (Sample.song_record "SOZCTXZ12AB0182364" "Setanta matins"
                     "AR5KOSW1187FB35FF4") ∈ songs_table Sample.songs)
    by (vm_compute; apply list_elem_of_here).
  split; [exact Hin|].
  apply (proj2 (songs_refer_to_artists Sample.songs _ Hin)).
  vm_compute. discriminate.
Defined.

(** ** Records without a key *)

Section NullKeys.

Variable c : string.

Lemma dropna_cons_null (x : Row) (df : DataFrame) :
  col c x = VNull -> dropna [c] (x :: df) = dropna [c] df.
Proof. intros H. unfold dropna. cbn. now rewrite H. Qed.

Lemma dropna_cons_keep (x : Row) (df : DataFrame) :
  col c x <> VNull -> dropna [c] (x :: df) = x :: dropna [c] df.
Proof.
  intros H. unfold dropna. cbn. destruct (col c x); [contradiction|reflexivity..].
Qed.

(** What has been seen of the null key does not matter once null keys
    are dropped. *)
Lemma dedup_seen_null (seen seen' : list (list Value)) (df : DataFrame) :
  (forall k, k <> [VNull] -> (k ∈ seen <-> k ∈ seen')) ->
  dropna [c] (dedup_from [c] seen df) = dropna [c] (dedup_from [c] seen' df).
Proof.
  revert seen seen'. induction df as [|x df IH]; intros seen seen' Hagree; [reflexivity|].
  cbn [dedup_from].
  destruct (decide (col c x = VNull)) as [Hnull|Hnn].
  - assert (Hkey : key_of [c] x = [VNull]) by (unfold key_of; cbn; now rewrite Hnull).
    assert (Hstep : forall s s' : list (list Value),
                      (forall k, k <> [VNull] -> (k ∈ s <-> k ∈ s')) ->
                      forall k, k <> [VNull] -> (k ∈ key_of [c] x :: s <-> k ∈ s')).
    { intros s s' Hs k Hk. rewrite elem_of_cons, Hkey. specialize (Hs k Hk). tauto. }
    do 2 case_bool_decide; rewrite ?dropna_cons_null by assumption; apply IH.
    + exact Hagree.
    + intros k Hk. symmetry. apply Hstep; [|assumption].
      intros k' Hk'. symmetry. now apply Hagree.
    + now apply Hstep.
    + intros k Hk. rewrite !elem_of_cons. specialize (Hagree k Hk). tauto.
  - assert (Hkey : key_of [c] x <> [VNull]).
    { unfold key_of. cbn. intros H. injection H as H. contradiction. }
    pose proof (Hagree _ Hkey) as Hx.
    do 2 case_bool_decide; try tauto.
    + now apply IH.
    + rewrite !dropna_cons_keep by assumption. f_equal. apply IH.
      intros k Hk. rewrite !elem_of_cons. specialize (Hagree k Hk). tauto.
Qed.

(** A record with a null key can be taken out of the input of a keyed
    table without changing the table. *)
Lemma keyed_table_remove_null (cols : list string) (before after : DataFrame) (r : Row) :
  c ∈ cols -> col c r = VNull ->
  dropna [c] (dropDuplicates [c] (select (List.map named cols) (before ++ r :: after)))
  = dropna [c] (dropDuplicates [c] (select (List.map named cols) (before ++ after))).
Proof.
  intros Hc Hnull. unfold dropDuplicates. generalize (@nil (list Value)) as seen.
  induction before as [|x before IH]; intros seen.
  - cbn [app select List.map dedup_from].
    assert (Hrow : col c (eval_row (List.map named cols) r) = VNull)
      by (now rewrite col_eval_row_named).
    case_bool_decide.
    + reflexivity.
    + rewrite dropna_cons_null by assumption. apply dedup_seen_null.
      intros k Hk. rewrite elem_of_cons. unfold key_of. cbn. rewrite Hrow. tauto.
  - cbn [app select List.map dedup_from]. case_bool_decide; [apply IH|].
    destruct (decide (col c (eval_row (List.map named cols) x) = VNull)) as [Hx|Hx].
    + rewrite !dropna_cons_null by assumption. apply IH.
    + rewrite !dropna_cons_keep by assumption. f_equal. apply IH.
Qed.

End NullKeys.

(** X3. A song record without song_id leaves no row in the songs table,
    one without artist_id none in the artists table, and a log record
    without userId none in the users table: each table is the same with
    the record in the input as with it taken out. *)
Theorem null_key_records_leave_no_row (before after : DataFrame) (r : Row) :
  (col "song_id" r = VNull ->
     songs_table (before ++ r :: after) = songs_table (before ++ after))
  /\ (col "artist_id" r = VNull ->
     artists_table (before ++ r :: after) = artists_table (before ++ after))
  /\ (col "userId" r = VNull ->
     users_of (before ++ r :: after) = users_of (before ++ after)).
Proof.
  repeat split; intros Hnull.
  - apply keyed_table_remove_null; [apply list_elem_of_In; cbn; auto|assumption].
  - apply keyed_table_remove_null; [apply list_elem_of_In; cbn; auto|assumption].
  - unfold users_of. change (r :: after) with ([r] ++ after).
    rewrite !next_song_app.
    destruct (next_song [r]) as [|r' [|]] eqn:Hr.
    + reflexivity.
    + assert (Heq : r' = r).
      { unfold next_song, filter_rows in Hr. cbn in Hr.
        destruct (holds _) in Hr; [now injection Hr|discriminate]. }
      subst r'. apply keyed_table_remove_null; [apply list_elem_of_In; cbn; auto|assumption].
    + unfold next_song, filter_rows in Hr. cbn in Hr.
      destruct (holds _) in Hr; discriminate.
Qed.

Lemma null_key_records_leave_no_row_witness :
  songs_table ([Sample.song_record "S1" "One" "A1"] ++ [("title", VStr "Lost")] :: Sample.songs)
  = songs_table ([Sample.song_record "S1" "One" "A1"] ++ Sample.songs).
Proof.
  apply (proj1 (null_key_records_leave_no_row
                  [Sample.song_record "S1" "One" "A1"] Sample.songs [("title", VStr "Lost")])).
  reflexivity.
Defined.

(** ** The time table follows the playback events *)

Lemma time_table_row_ext (tz : Z) (e1 e2 : Row) :
  col "start_time" e1 = col "start_time" e2 ->
  time_table tz [e1] = time_table tz [e2].
Proof.
  intros H. unfold time_table, select, eval_row, alias, named. cbn [List.map fst snd].
  rewrite H.
  rewrite (date_format_ext tz "start_time" "H" e1 e2 H).
  rewrite (date_format_ext tz "start_time" "D" e1 e2 H).
  rewrite (date_format_ext tz "start_time" "w" e1 e2 H).
  rewrite (date_format_ext tz "start_time" "M" e1 e2 H).
  rewrite (date_format_ext tz "start_time" "y" e1 e2 H).
  rewrite (date_format_ext tz "start_time" "W" e1 e2 H).
  reflexivity.
Qed.

(** X5. The time table has one row for each playback event of the log
    (not one per distinct timestamp), and a row is determined by its
    start_time: two rows with the same start_time are the same row in
    every column. *)
Theorem time_table_follows_events (tz : Z) (log t : DataFrame) :
  time_of tz log = Ok t ->
  length t = length (next_song log)
  /\ (forall r1 r2, r1 ∈ t -> r2 ∈ t ->
        col "start_time" r1 = col "start_time" r2 -> r1 = r2).
Proof.
  intros Ht. split; [now apply (time_of_length tz)|].
  unfold time_of in Ht.
  destruct (with_start_time tz (next_song log)) as [events|]; [|discriminate].
  injection Ht as <-. intros r1 r2 H1 H2 Heq. unfold time_table in H1, H2.
  apply elem_of_select in H1 as (e1 & _ & ->).
  apply elem_of_select in H2 as (e2 & _ & ->).
  assert (He : col "start_time" e1 = col "start_time" e2) by exact Heq.
  pose proof (time_table_row_ext tz e1 e2 He) as Hrow.
  unfold time_table, select in Hrow. cbn [List.map] in Hrow.
  exact (f_equal (fun l => List.hd [] l) Hrow).
Qed.

Lemma time_table_follows_events_witness :
  length [Sample.time_row; Sample.time_row] = length (next_song Sample.log).
Proof.
  apply (time_table_follows_events 0 Sample.log [Sample.time_row; Sample.time_row]).
  vm_compute. reflexivity.
Defined.

(** ** The job only adds files *)

Lemma writes_within_ret (paths : list string) {A} (a : A) : writes_within paths (ret a).
Proof. intros w. cbn. auto. Qed.

Lemma writes_within_raise (paths : list string) {A} (e : Error) :
  writes_within paths (@raise A e).
Proof. intros w. cbn. auto. Qed.

Lemma writes_within_lift (paths : list string) {A} (r : Result A) :
  writes_within paths (lift r).
Proof. destruct r; [apply writes_within_ret|apply writes_within_raise]. Qed.

Lemma writes_within_emit (paths : list string) (e : Event) : writes_within paths (emit e).
Proof. intros w. cbn. repeat split; auto. now exists [e]. Qed.

Lemma writes_within_bind (paths : list string) {A B} (m : M A) (k : A -> M B) :
  writes_within paths m -> (forall a, writes_within paths (k a)) ->
  writes_within paths (bind m k).
Proof.
  intros Hm Hk w. unfold bind. destruct (Hm w) as (H1 & H2 & H3).
  destruct (m w) as [[a|e] w1]; cbn [snd] in *; [|auto].
  destruct (Hk a w1) as (K1 & K2 & K3). repeat split.
  - intros p st Hp. now apply K1, H1.
  - intros p Hp. now rewrite K2, H2.
  - now transitivity (trace w1).
Qed.

Lemma writes_within_load_json (paths : list string) (spark : SparkSession) (path : string) :
  writes_within paths (load_json spark path).
Proof.
  intros w. rewrite load_json_run. cbn. repeat split; auto. now exists [Load path].
Qed.

Lemma writes_within_parquet (paths : list string) (wr : DataFrameWriter) (path : string) :
  path ∈ paths -> writes_within paths (parquet wr path).
Proof.
  intros Hin w. rewrite parquet_run.
  destruct (path_exists (files w) (leftovers w) path) eqn:Hp;
    [|destruct (w_df wr)]; cbn; repeat split; auto;
    try (now exists [Save path (w_partition_by wr)]).
  - intros p st Hst. apply path_exists_false in Hp as [Hp _].
    rewrite lookup_insert_ne; [assumption|congruence].
  - intros p Hout. rewrite lookup_insert_ne; [reflexivity|]. intros ->. contradiction.
Qed.

Lemma output_path_elem (p : string) :
  p = users_out \/ p = time_out \/ p = songplays_out \/ p = songs_out \/ p = artists_out ->
  p ∈ output_paths.
Proof.
  intros H. apply list_elem_of_In. unfold output_paths.
  destruct H as [->|[->|[->|[->| ->]]]]; cbn; auto 10.
Qed.

Ltac one_of_paths := first [ reflexivity | left; reflexivity | right; one_of_paths ].

Lemma writes_within_main (tz : Z) (layout : DataFrame -> list DataFrame) :
  writes_within output_paths (main tz layout).
Proof.
  unfold main, process_log_data, process_song_data, create_spark_session.
  repeat first
    [ apply writes_within_load_json
    | apply writes_within_parquet; apply output_path_elem; one_of_paths
    | apply writes_within_emit
    | apply writes_within_ret
    | apply writes_within_lift
    | apply writes_within_bind; [|intros ?]
    | progress cbv zeta ].
Qed.

(** X6. [main] never changes or removes what is stored: every file
    present before a run, the two input datasets and any output of an
    earlier run included, is present with the same content after it,
    whether the run succeeds or fails; no path other than the five output
    locations is touched; and the record of engine calls only grows. *)
Theorem main_only_adds_files
    (tz : Z) (layout : DataFrame -> list DataFrame) (w : World) :
  (forall p st, files w !! p = Some st ->
     files (snd (main tz layout w)) !! p = Some st)
  /\ (forall p, p ∉ output_paths ->
     files (snd (main tz layout w)) !! p = files w !! p)
  /\ trace w `prefix_of` trace (snd (main tz layout w)).
Proof. apply writes_within_main. Qed.

Lemma main_only_adds_files_witness :
  files (snd (main 0 Sample.one_partition Sample.world)) !! log_path
  = Some (mkStored [] Sample.log).
Proof.
  apply (proj1 (main_only_adds_files 0 Sample.one_partition Sample.world)).
  reflexivity.
Defined.

(** ** Complete and failed runs *)

Ltac name_paths :=
  change (os_path_join "s3a://udacity-dend/" "log_data/*/*") with log_path in *;
  change (os_path_join "s3a://udacity-dend/" "song_data/*/*/*") with song_path in *;
  change (os_path_join "analytics" "user_table_parquet") with users_out in *;
  change (os_path_join "analytics" "time_table_parquet") with time_out in *;
  change (os_path_join "analytics" "songplay_table_parquet") with songplays_out in *;
  change (os_path_join "analytics" "songs_table_parquet") with songs_out in *;
  change (os_path_join "analytics" "artist_table_parquet") with artists_out in *.

Ltac start_main :=
  unfold main, process_log_data, process_song_data, create_spark_session; name_paths;
  unfold bind at 1 2; cbn [emit ret fst snd files leftovers trace];
  unfold bind.

Lemma is_ok_unit (r : Result unit) : is_ok r = true -> r = Ok tt.
Proof. now destruct r as [[]|]. Qed.

Lemma outputs_absent_each (w : World) :
  outputs_absent w ->
  path_exists (files w) (leftovers w) users_out = false
  /\ path_exists (files w) (leftovers w) time_out = false
  /\ path_exists (files w) (leftovers w) songplays_out = false
  /\ path_exists (files w) (leftovers w) songs_out = false
  /\ path_exists (files w) (leftovers w) artists_out = false.
Proof.
  intros H. repeat split; apply H, output_path_elem; one_of_paths.
Qed.

Lemma log_columns_resolve_each (log : DataFrame) :
  log_columns_resolve log = true ->
  resolve (columns log) "page" = Ok tt
  /\ resolve_all (columns log) user_columns = Ok tt
  /\ getattr (columns log) "ts" = Ok tt
  /\ resolve (rename_column "ts" "start_time" (columns log)) "start_time" = Ok tt
  /\ getattr (rename_column "ts" "start_time" (columns log)) "song" = Ok tt.
Proof.
  unfold log_columns_resolve. rewrite !andb_true_iff.
  intros ((((H1 & H2) & H3) & H4) & H5).
  repeat split; now apply is_ok_unit.
Qed.

Lemma columns_resolve_each (log song_df : DataFrame) :
  columns_resolve log song_df = true ->
  log_columns_resolve log = true
  /\ getattr (columns song_df) "title" = Ok tt
  /\ resolve_all (rename_column "ts" "start_time" (columns log) ++ columns song_df)
       joined_columns = Ok tt
  /\ resolve_all (columns song_df) song_columns = Ok tt
  /\ resolve_all (columns song_df) artist_columns = Ok tt.
Proof.
  unfold columns_resolve. rewrite !andb_true_iff.
  intros ((((H1 & H2) & H3) & H4) & H5).
  repeat split; try assumption; now apply is_ok_unit.
Qed.

Lemma main_success_run (tz : Z) (layout : DataFrame -> list DataFrame) (w : World)
    (log_st song_st : Stored) (events : DataFrame) :
  files w !! log_path = Some log_st ->
  files w !! song_path = Some song_st ->
  outputs_absent w ->
  columns_resolve (content log_st) (content song_st) = true ->
  with_start_time tz (next_song (content log_st)) = Ok events ->
  main tz layout w
  = (Ok tt,
     {| files := store_tables tz layout (content log_st) (content song_st) events (files w);
        leftovers := leftovers w;
        trace := trace w ++ run_events |}).
Proof.
  intros Hlog Hsong Hout Hcols Hev.
  destruct (outputs_absent_each w Hout) as (Hu & Ht & Hsp & Hso & Har).
  destruct (columns_resolve_each _ _ Hcols) as (Hl & C6 & C7 & C8 & C9).
  destruct (log_columns_resolve_each _ Hl) as (C1 & C2 & C3 & C4 & C5).
  start_main. step_load. rewrite Hlog. cbn [fst snd].
  rewrite C1, C2. cbn [lift ret].
  step_save. rewrite Hu.
  rewrite C3, C4. cbn [lift ret].
  step_save. rewrite Ht. rewrite Hev. cbn [rmap].
  step_load. rewrite Hsong.
  rewrite C5, C6, C7. cbn [lift ret].
  step_save. rewrite Hsp.
  step_load. rewrite Hsong.
  rewrite C8. cbn [lift ret].
  step_save. rewrite Hso.
  rewrite C9. cbn [lift ret].
  step_save. rewrite Har.
  unfold store_tables, users_of. rewrite <- !app_assoc. reflexivity.
Qed.

Ltac failed := cbn [fst is_ok]; discriminate.

Ltac must_resolve :=
  match goal with
  | |- context [lift ?c] =>
      destruct c as [[]|] eqn:?; cbn [lift ret raise]; [|failed]
  end.

Ltac must_be_absent :=
  match goal with
  | |- context [path_exists ?fs ?ls ?p] =>
      destruct (path_exists fs ls p) eqn:?; [failed|]
  end.

Lemma main_ok_conditions (tz : Z) (layout : DataFrame -> list DataFrame) (w : World) :
  is_ok (fst (main tz layout w)) = true ->
  exists log_st song_st events,
    files w !! log_path = Some log_st
    /\ files w !! song_path = Some song_st
    /\ outputs_absent w
    /\ columns_resolve (content log_st) (content song_st) = true
    /\ with_start_time tz (next_song (content log_st)) = Ok events.
Proof.
  start_main. step_load.
  destruct (files w !! log_path) as [log_st|] eqn:Hlog; [|failed].
  cbn [fst snd]. must_resolve. must_resolve.
  step_save. must_be_absent.
  must_resolve. must_resolve.
  step_save. must_be_absent.
  destruct (with_start_time tz (next_song (content log_st))) as [events|] eqn:Hev;
    cbn [rmap]; [|failed].
  step_load.
  destruct (files w !! song_path) as [song_st|] eqn:Hsong; [|failed].
  must_resolve. must_resolve. must_resolve.
  step_save. must_be_absent.
  step_load. rewrite Hsong.
  must_resolve.
  step_save. must_be_absent.
  must_resolve.
  step_save. must_be_absent.
  intros _. exists log_st, song_st, events.
  split; [reflexivity|]. split; [reflexivity|]. split; [|split; [|exact Hev]].
  - intros p Hp. unfold output_paths in Hp.
    repeat (apply elem_of_cons in Hp as [->|Hp]; [assumption|]). inversion Hp.
  - unfold columns_resolve, log_columns_resolve.
    repeat match goal with H : _ = Ok tt |- _ => rewrite H; clear H end.
    reflexivity.
Qed.

Lemma mapM_fails {A B} (f : A -> Result B) (l : list A) (x : A) (e : Error) :
  x ∈ l -> f x = Err e -> exists e', mapM f l = Err e'.
Proof.
  induction l as [|y l IH]; intros Hin Hx.
  - inversion Hin.
  - cbn. destruct (f y) as [b|e1] eqn:Hy; [|eauto].
    apply elem_of_cons in Hin as [->|Hin]; [congruence|].
    destruct (IH Hin Hx) as [e' ->]. eauto.
Qed.

Lemma main_fails_at_udf (tz : Z) (layout : DataFrame -> list DataFrame) (w : World)
    (log_st : Stored) (e : Error) :
  files w !! log_path = Some log_st ->
  log_columns_resolve (content log_st) = true ->
  path_exists (files w) (leftovers w) users_out = false ->
  path_exists (files w) (leftovers w) time_out = false ->
  with_start_time tz (next_song (content log_st)) = Err e ->
  main tz layout w
  = (Err e,
     {| files := <[users_out := mkStored [] (users_of (content log_st))]> (files w);
        leftovers := time_out :: leftovers w;
        trace := trace w ++ [GetOrCreateSession; Load log_path; Save users_out [];
                             Save time_out []] |}).
Proof.
  intros Hlog Hl Hu Ht Hev.
  destruct (log_columns_resolve_each _ Hl) as (C1 & C2 & C3 & C4 & C5).
  start_main. step_load. rewrite Hlog. cbn [fst snd].
  rewrite C1, C2. cbn [lift ret].
  step_save. rewrite Hu.
  rewrite C3, C4. cbn [lift ret].
  step_save. rewrite Ht. rewrite Hev. cbn [rmap].
  rewrite <- !app_assoc. reflexivity.
Qed.

Lemma main_rerun (tz : Z) (layout : DataFrame -> list DataFrame) (w : World)
    (log_st st : Stored) :
  files w !! log_path = Some log_st ->
  log_columns_resolve (content log_st) = true ->
  files w !! users_out = Some st ->
  main tz layout w
  = (Err (PathAlreadyExists users_out),
     {| files := files w;
        leftovers := leftovers w;
        trace := trace w ++ [GetOrCreateSession; Load log_path; Save users_out []] |}).
Proof.
  intros Hlog Hl Hu.
  destruct (log_columns_resolve_each _ Hl) as (C1 & C2 & _).
  start_main. step_load. rewrite Hlog. cbn [fst snd].
  rewrite C1, C2. cbn [lift ret].
  step_save. rewrite (path_exists_stored _ _ _ _ Hu).
  rewrite <- !app_assoc. reflexivity.
Qed.

Lemma log_in_order_resolves (log : DataFrame) :
  log_in_order log = true -> log_columns_resolve log = true.
Proof. unfold log_in_order. rewrite !andb_true_iff. tauto. Qed.

Lemma datasets_in_order_resolve (log song_df : DataFrame) :
  datasets_in_order log song_df = true -> columns_resolve log song_df = true.
Proof. unfold datasets_in_order. rewrite !andb_true_iff. tauto. Qed.

(** X8. A complete run stores the five tables computed from the two
    datasets.  With the machine in UTC: when both datasets are there and
    in order (read with one type per column, with the columns the script
    names, each once, and no two names differing in case only), the
    timestamp of every playback event converts, and nothing is at any
    of the five output locations, [main] succeeds after the nine engine
    calls in their order and leaves users, time and songplays computed
    from the log (songplays joined with the song data), songs and
    artists computed from the song data, each at its location with its
    partitioning, beside what was stored before. *)
Theorem main_stores_the_five_tables
    (layout : DataFrame -> list DataFrame) (w : World)
    (log_st song_st : Stored) (events : DataFrame) :
  files w !! log_path = Some log_st ->
  files w !! song_path = Some song_st ->
  datasets_in_order (content log_st) (content song_st) = true ->
  with_start_time 0 (next_song (content log_st)) = Ok events ->
  outputs_absent w ->
  main 0 layout w
  = (Ok tt,
     {| files := store_tables 0 layout (content log_st) (content song_st) events (files w);
        leftovers := leftovers w;
        trace := trace w ++ run_events |})
  /\ time_of 0 (content log_st) = Ok (time_table 0 events)
  /\ songplays_of 0 layout (content log_st) (content song_st)
     = Ok (songplays_table 0 layout events (content song_st)).
Proof.
  intros Hlog Hsong Hcols Hev Hout. apply datasets_in_order_resolve in Hcols.
  split; [now apply main_success_run|].
  unfold time_of, songplays_of. rewrite Hev. split; reflexivity.
Qed.

Lemma sample_outputs_absent : outputs_absent Sample.world.
Proof.
  intros p Hp. unfold output_paths in Hp.
  repeat (apply elem_of_cons in Hp as [->|Hp]; [vm_compute; reflexivity|]).
  inversion Hp.
Qed.

Lemma main_stores_the_five_tables_witness :
  exists events,
    with_start_time 0 (next_song Sample.log) = Ok events
    /\ fst (main 0 Sample.one_partition Sample.world) = Ok tt
    /\ files (snd (main 0 Sample.one_partition Sample.world))
       = store_tables 0 Sample.one_partition Sample.log Sample.songs events
           (files Sample.world).
Proof.
  destruct (with_start_time 0 (next_song Sample.log)) as [events|] eqn:Hev;
    [|vm_compute in Hev; discriminate Hev].
  exists events. split; [reflexivity|].
  assert (Hord : datasets_in_order Sample.log Sample.songs = true)
    by (vm_compute; reflexivity).
  destruct (main_stores_the_five_tables Sample.one_partition Sample.world
              (mkStored [] Sample.log) (mkStored [] Sample.songs) events
              eq_refl eq_refl Hord Hev sample_outputs_absent) as [Hrun _].
  rewrite Hrun. split; reflexivity.
Defined.

(** X9. The job cannot be run twice over the same output location: after
    a successful run, a second run (in any zone, with any placement)
    obtains a session, loads the log, fails at its first write with the
    error for an existing path, and leaves every file as it was. *)
Theorem second_run_fails_at_first_write
    (tz tz' : Z) (layout layout' : DataFrame -> list DataFrame) (w w1 : World) :
  main tz layout w = (Ok tt, w1) ->
  main tz' layout' w1
  = (Err (PathAlreadyExists users_out),
     {| files := files w1;
        leftovers := leftovers w1;
        trace := trace w1 ++ [GetOrCreateSession; Load log_path; Save users_out []] |}).
Proof.
  intros Hrun.
  assert (Hok : is_ok (fst (main tz layout w)) = true) by now rewrite Hrun.
  apply main_ok_conditions in Hok
    as (log_st & song_st & events & Hlog & Hsong & Hout & Hcols & Hev).
  rewrite (main_success_run tz layout w log_st song_st events Hlog Hsong Hout Hcols Hev)
    in Hrun.
  injection Hrun as <-.
  apply (main_rerun tz' layout' _ log_st (mkStored [] (users_of (content log_st))));
    cbn [files]; unfold store_tables.
  - rewrite !lookup_insert_ne by ne_paths. exact Hlog.
  - now destruct (columns_resolve_each _ _ Hcols).
  - rewrite !lookup_insert_ne by ne_paths. apply lookup_insert_eq.
Qed.

Lemma second_run_fails_at_first_write_witness :
  fst (main 0 Sample.one_partition (snd (main 0 Sample.one_partition Sample.world)))
  = Err (PathAlreadyExists users_out).
Proof.
  destruct (main 0 Sample.one_partition Sample.world) as [r w1] eqn:Hrun.
  assert (Hr : r = Ok tt).
  { change r with (fst (r, w1)). rewrite <- Hrun. vm_compute. reflexivity. }
  subst r. cbn [snd].
  now rewrite (second_run_fails_at_first_write 0 0 Sample.one_partition
                 Sample.one_partition Sample.world w1 Hrun).
Defined.

(** X10. One playback record without a timestamp fails the whole job
    while the time table is being written.  The conversion runs only
    when a write evaluates it, so for a log in order (read with one type
    per column, with the columns the script names, no two names
    differing in case only), with nothing at the users and time
    locations, the users table is written first and stored, the write of
    the time table is started and fails with the error of the
    conversion, its directory is left behind without data, and nothing
    after it runs: the song data is not loaded and no other table is
    written.  The exit status is 1. *)
Theorem playback_without_ts_fails_the_time_write
    (tz : Z) (layout : DataFrame -> list DataFrame) (w : World)
    (log_st : Stored) (r : Row) :
  files w !! log_path = Some log_st ->
  log_in_order (content log_st) = true ->
  path_exists (files w) (leftovers w) users_out = false ->
  path_exists (files w) (leftovers w) time_out = false ->
  r ∈ content log_st ->
  col "page" r = VStr "NextSong" ->
  col "ts" r = VNull ->
  exists e,
    main tz layout w
    = (Err e,
       {| files := <[users_out := mkStored [] (users_of (content log_st))]> (files w);
          leftovers := time_out :: leftovers w;
          trace := trace w ++ [GetOrCreateSession; Load log_path; Save users_out [];
                               Save time_out []] |})
    /\ exit_status (main tz layout w) = 1.
Proof.
  intros Hlog Hcols Hu Ht Hr Hpage Hts. apply log_in_order_resolves in Hcols.
  assert (Hfail : exists e, with_start_time tz (next_song (content log_st)) = Err e).
  { unfold with_start_time, withColumn.
    destruct (mapM_fails
                (fun r0 => match get_timestamp tz "ts" r0 with
                           | Ok v => Ok (set_col "ts" v r0)
                           | Err x => Err x
                           end)
                (next_song (content log_st)) r
                (TypeError "unsupported operand type(s) for /: 'NoneType' and 'float'"))
      as [e He].
    - now apply next_song_elem.
    - unfold get_timestamp. now rewrite Hts.
    - exists e. now rewrite He. }
  destruct Hfail as [e He]. exists e.
  rewrite (main_fails_at_udf tz layout w log_st e Hlog Hcols Hu Ht He).
  split; reflexivity.
Qed.

Lemma playback_without_ts_fails_the_time_write_witness :
  main 0 Sample.one_partition Sample.world_bad_ts
  = (Err (TypeError "unsupported operand type(s) for /: 'NoneType' and 'float'"),
     {| files := <[users_out := mkStored [] (users_of [Sample.play; Sample.play_no_ts])]>
                   (files Sample.world_bad_ts);
        leftovers := [time_out];
        trace := [GetOrCreateSession; Load log_path; Save users_out []; Save time_out []] |})
  /\ exit_status (main 0 Sample.one_partition Sample.world_bad_ts) = 1.
Proof.
  destruct (playback_without_ts_fails_the_time_write 0 Sample.one_partition
              Sample.world_bad_ts (mkStored [] [Sample.play; Sample.play_no_ts])
              Sample.play_no_ts)
    as (e & Hrun & Hexit).
  - reflexivity.
  - vm_compute. reflexivity.
  - reflexivity.
  - reflexivity.
  - cbn [content]. apply list_elem_of_In. cbn. auto.
  - reflexivity.
  - reflexivity.
  - split; [|exact Hexit]. rewrite Hrun. f_equal. f_equal.
    assert (He : fst (main 0 Sample.one_partition Sample.world_bad_ts)
                 = Err (TypeError "unsupported operand type(s) for /: 'NoneType' and 'float'"))
      by (vm_compute; reflexivity).
    rewrite Hrun in He. cbn [fst] in He. now injection He.
Defined.

(** ** The songplays table refers to the time table *)

Lemma has_col_renamed (old new : string) (v : Value) (r : Row) :
  has_col new (rename_col old new (set_col old v r)) = true.
Proof.
  induction r as [|[k x] r IH].
  - cbn [set_col]. rewrite rename_col_cons, String.eqb_refl, has_col_cons.
    now rewrite String.eqb_refl.
  - cbn [set_col]. destruct (String.eqb_spec k old) as [->|Hne].
    + rewrite rename_col_cons, String.eqb_refl, has_col_cons.
      now rewrite String.eqb_refl.
    + rewrite rename_col_cons. destruct (String.eqb_spec k old); [contradiction|].
      rewrite has_col_cons, IH. apply orb_true_r.
Qed.

(** X11. Every row of the songplays table has its start_time in the time
    table of the same run, with the same year and month: the columns
    songplays is partitioned by agree with the time dimension. *)
Theorem songplays_refer_to_time
    (tz : Z) (layout : DataFrame -> list DataFrame)
    (log song_df plays times : DataFrame) (row : Row) :
  lays_out layout ->
  songplays_of tz layout log song_df = Ok plays ->
  time_of tz log = Ok times ->
  row ∈ plays ->
  exists trow,
    trow ∈ times
    /\ col "start_time" trow = col "start_time" row
    /\ col "year" trow = col "year" row
    /\ col "month" trow = col "month" row.
Proof.
  intros Hlay Hp Ht Hin. unfold songplays_of in Hp. unfold time_of in Ht.
  destruct (with_start_time tz (next_song log)) as [events|] eqn:Hw; [|discriminate].
  injection Hp as <-. injection Ht as <-.
  unfold songplays_table in Hin.
  apply (withColumn_id_elem _ _ _ _ Hlay) in Hin as (r0 & id & Hr0 & ->).
  apply songplays_joined_elem in Hr0 as (e & s & He & _ & _ & ->).
  assert (Hst : col "start_time" (e ++ s) = col "start_time" e).
  { destruct (with_start_time_elem tz log events e Hw He) as (r & us & _ & _ & _ & ->).
    apply col_app_l, has_col_renamed. }
  exists (eval_row
            [ named "start_time"; alias (date_format tz "start_time" "H") "hour";
              alias (date_format tz "start_time" "D") "day";
              alias (date_format tz "start_time" "w") "week";
              alias (date_format tz "start_time" "M") "month";
              alias (date_format tz "start_time" "y") "year";
              alias (date_format tz "start_time" "W") "weekday" ] e).
  split; [unfold time_table; apply elem_of_select; eauto|].
  rewrite !col_set_col_ne by discriminate.
  split; [|split].
  - change (col "start_time" e = col "start_time" (e ++ s)). now symmetry.
  - change (date_format tz "start_time" "y" e = date_format tz "start_time" "y" (e ++ s)).
    apply date_format_ext. now symmetry.
  - change (date_format tz "start_time" "M" e = date_format tz "start_time" "M" (e ++ s)).
    apply date_format_ext. now symmetry.
Qed.

Lemma songplays_refer_to_time_witness :
  songplays_of 0 Sample.one_partition Sample.log Sample.songs = Ok [Sample.songplay_row]
  /\ exists trow,
      trow ∈ [Sample.time_row; Sample.time_row]
      /\ col "start_time" trow = col "start_time" Sample.songplay_row
      /\ col "year" trow = col "year" Sample.songplay_row.
Proof.
  assert (Hp : songplays_of 0 Sample.one_partition Sample.log Sample.songs
               = Ok [Sample.songplay_row]) by (vm_compute; reflexivity).
  split; [exact Hp|].
  destruct (songplays_refer_to_time 0 Sample.one_partition Sample.log Sample.songs
              [Sample.songplay_row] [Sample.time_row; Sample.time_row]
              Sample.songplay_row one_partition_lays_out Hp)
    as (trow & Ht & Hs & Hy & _).
  - vm_compute. reflexivity.
  - apply list_elem_of_here.
  - exists trow. auto.
Defined.

(** ** Identifiers grow along the stored order *)

Lemma monotonically_increasing_id_value (p k : Z) :
  0 <= p < 2 ^ 30 -> 0 <= k < 2 ^ 33 ->
  monotonically_increasing_id p k = p * 2 ^ 33 + k.
Proof.
  unfold monotonically_increasing_id, wrap64.
  rewrite Z.shiftl_mul_pow2 by lia.
  change (2 ^ 30) with 1073741824. change (2 ^ 33) with 8589934592.
  change (2 ^ 63) with 9223372036854775808.
  change (2 ^ 64) with 18446744073709551616.
  intros Hp Hk. div_lia.
Qed.

Lemma number_rows_sorted (name : string) (p c : Z) (rows : DataFrame) :
  0 <= p < 2 ^ 30 -> 0 <= c -> c + Z.of_nat (length rows) <= 2 ^ 33 ->
  exists ids,
    List.map (col name) (number_rows name p c rows) = List.map VLong ids
    /\ StronglySorted Z.lt ids
    /\ Forall (fun i => p * 2 ^ 33 + c <= i < p * 2 ^ 33 + c + Z.of_nat (length rows)) ids.
Proof.
  intros Hp. revert c. induction rows as [|r rows IH]; intros c Hc Hlen.
  - exists []. repeat split; constructor.
  - cbn [length] in Hlen. destruct (IH (c + 1)) as (ids & Hids & Hsorted & Hrange); [lia..|].
    exists (p * 2 ^ 33 + c :: ids). cbn [number_rows List.map].
    rewrite col_set_col_eq, Hids, monotonically_increasing_id_value by lia.
    split; [reflexivity|]. split.
    + constructor; [assumption|]. eapply Forall_impl; [exact Hrange|].
      cbn. intros i Hi. lia.
    + constructor; [cbn [length]; lia|]. eapply Forall_impl; [exact Hrange|].
      cbn. intros i Hi. lia.
Qed.

Lemma number_partitions_sorted (name : string) (p : Z) (parts : list DataFrame) :
  0 <= p -> p + Z.of_nat (length parts) <= 2 ^ 30 ->
  Forall (fun part => Z.of_nat (length part) <= 2 ^ 33) parts ->
  exists ids,
    List.map (col name) (concat (number_partitions name p parts)) = List.map VLong ids
    /\ StronglySorted Z.lt ids
    /\ Forall (fun i => p * 2 ^ 33 <= i < (p + Z.of_nat (length parts)) * 2 ^ 33) ids.
Proof.
  intros Hp Hn Hsz. revert p Hp Hn.
  induction Hsz as [|part parts Hpart _ IH]; intros p Hp Hn.
  - exists []. repeat split; constructor.
  - cbn [length] in Hn.
    destruct (number_rows_sorted name p 0 part) as (ids1 & H1 & S1 & R1); [lia..|].
    destruct (IH (p + 1)) as (ids2 & H2 & S2 & R2); [lia..|].
    exists (ids1 ++ ids2). cbn [number_partitions concat].
    rewrite !List.map_app, H1, H2. split; [reflexivity|]. split.
    + apply StronglySorted_app_2; [|assumption..].
      intros x1 x2 Hx1 Hx2.
      rewrite Forall_forall in R1, R2.
      specialize (R1 x1 Hx1). specialize (R2 x2 Hx2). cbn in R1. lia.
    + apply Forall_app. split.
      * eapply Forall_impl; [exact R1|]. cbn. intros i Hi. cbn [length]. lia.
      * eapply Forall_impl; [exact R2|]. cbn. intros i Hi. cbn [length]. lia.
Qed.

(** X12. With fewer than 2^30 partitions of at most 2^33 rows, the
    identifiers of the songplays table are non-negative integers that
    grow strictly along the stored order of the rows (partition after
    partition, row after row), below 2^63. *)
Theorem songplay_ids_grow
    (tz : Z) (layout : DataFrame -> list DataFrame) (log song_df events t : DataFrame) :
  with_start_time tz (next_song log) = Ok events ->
  Z.of_nat (length (layout (songplays_joined tz events song_df))) <= 2 ^ 30 ->
  Forall (fun part => Z.of_nat (length part) <= 2 ^ 33)
         (layout (songplays_joined tz events song_df)) ->
  songplays_of tz layout log song_df = Ok t ->
  exists ids,
    List.map (col "songplay_id") t = List.map VLong ids
    /\ StronglySorted Z.lt ids
    /\ Forall (fun i => 0 <= i < 2 ^ 63) ids.
Proof.
  intros Hw Hn Hsz Ht. unfold songplays_of in Ht. rewrite Hw in Ht.
  injection Ht as <-. unfold songplays_table, withColumn_id.
  destruct (number_partitions_sorted "songplay_id" 0
              (layout (songplays_joined tz events song_df))) as (ids & Hids & Hs & Hr);
    [lia|lia|assumption|].
  exists ids. split; [assumption|]. split; [assumption|].
  eapply Forall_impl; [exact Hr|]. cbn. intros i Hi.
  change (2 ^ 63) with (2 ^ 30 * 2 ^ 33). nia.
Qed.

Lemma songplay_ids_grow_witness :
  exists ids,
    List.map (col "songplay_id")
      (songplays_table 0 Sample.row_per_partition
         [ rename_col "ts" "start_time"
             (set_col "ts" (VTimestamp 1542241826796000) Sample.play);
           rename_col "ts" "start_time"
             (set_col "ts" (VTimestamp 259200000000) Sample.play_sunday) ]
         Sample.songs)
    = List.map VLong ids
    /\ StronglySorted Z.lt ids.
Proof.
  destruct (songplay_ids_grow 0 Sample.row_per_partition Sample.two_plays Sample.songs
              [ rename_col "ts" "start_time"
                  (set_col "ts" (VTimestamp 1542241826796000) Sample.play);
                rename_col "ts" "start_time"
                  (set_col "ts" (VTimestamp 259200000000) Sample.play_sunday) ]
              (songplays_table 0 Sample.row_per_partition
                 [ rename_col "ts" "start_time"
                     (set_col "ts" (VTimestamp 1542241826796000) Sample.play);
                   rename_col "ts" "start_time"
                     (set_col "ts" (VTimestamp 259200000000) Sample.play_sunday) ]
                 Sample.songs))
    as (ids & Hids & Hs & _).
  - vm_compute. reflexivity.
  - vm_compute. discriminate.
  - repeat constructor; vm_compute; discriminate.
  - vm_compute. reflexivity.
  - exists ids. auto.
Defined.

(** ** Calendar fields of the time table lie in their ranges *)

Section FieldRanges.

Import Calendar.

Lemma civil_month_day (z : Z) :
  let '(y, m, d) := civil_from_days z in 1 <= m <= 12 /\ 1 <= d <= 31.
Proof.
  unfold civil_from_days.
  set (z' := z + 719468).
  set (era := z' / 146097).
  set (doe := z' - era * 146097).
  assert (Hdoe : 0 <= doe < 146097) by (subst doe era; div_lia).
  pose proof (era_year_month doe Hdoe) as H. cbv zeta in H.
  set (yoe := (doe - doe / 1460 + doe / 36524 - doe / 146096) / 365) in *.
  set (doy := doe - (365 * yoe + yoe / 4 - yoe / 100)) in *.
  set (mp := (5 * doy + 2) / 153) in *.
  destruct H as (Hy & Hd & Hm).
  split.
  - destruct (Z.ltb_spec mp 10); lia.
  - subst mp. div_lia.
Qed.

Lemma days_from_civil_first (y m d : Z) :
  days_from_civil y m 1 = days_from_civil y m d - (d - 1).
Proof. unfold days_from_civil. lia. Qed.

Lemma on_or_before_range (day dow : Z) :
  day - 6 <= on_or_before day dow <= day.
Proof. unfold on_or_before, day_of_week0. div_lia. Qed.

Lemma getWeekNumber_range (day1 date : Z) :
  day1 <= date <= day1 + 30 -> 1 <= getWeekNumber day1 date <= 6.
Proof.
  intros H. unfold getWeekNumber, first_day_of_week, minimal_days_in_first_week.
  pose proof (on_or_before_range (day1 + 6) 1) as Hb.
  set (s := on_or_before (day1 + 6) 1) in *.
  destruct (Z.geb_spec (s - day1) 1); div_lia.
Qed.

Lemma day_of_year_range (z : Z) :
  let '(y, m, d) := civil_from_days z in
  1 <= z - days_from_civil y 1 1 + 1 <= 366.
Proof.
  unfold civil_from_days.
  set (z' := z + 719468).
  set (era := z' / 146097).
  set (doe := z' - era * 146097).
  assert (Hdoe : 0 <= doe < 146097) by (subst doe era; div_lia).
  pose proof (era_year_month doe Hdoe) as H. cbv zeta in H.
  set (yoe := (doe - doe / 1460 + doe / 36524 - doe / 146096) / 365) in *.
  set (doy := doe - (365 * yoe + yoe / 4 - yoe / 100)) in *.
  set (mp := (5 * doy + 2) / 153) in *.
  destruct H as (Hy & Hd & Hm).
  assert (Hz : z = era * 146097 + doe - 719468) by (subst doe z'; lia).
  unfold days_from_civil. cbn [Z.leb Z.gtb Z.compare Pos.compare Pos.compare_cont].
  destruct (Z.ltb_spec mp 10) as [Hlt|Hge].
  - replace (mp + 3 <=? 2) with false by decide_cmp.
    assert (Hdoy : doy <= 305) by (subst mp; div_lia).
    destruct (Z.eq_dec yoe 0) as [Hy0|Hy0].
    + replace ((yoe + era * 400 - 1) / 400) with (era - 1) by div_lia.
      rewrite Hz. subst doy. div_lia.
    + replace ((yoe + era * 400 - 1) / 400) with era by div_lia.
      rewrite Hz. subst doy. div_lia.
  - replace (mp - 9 <=? 2) with true by decide_cmp.
    replace (yoe + era * 400 + 1 - 1) with (yoe + era * 400) by lia.
    replace ((yoe + era * 400) / 400) with era by div_lia.
    assert (Hdoy : 306 <= doy) by (subst mp; div_lia).
    rewrite Hz. subst doy. div_lia.
Qed.

Lemma day_of_year_leap (z : Z) :
  let '(y, m, d) := civil_from_days z in
  z - days_from_civil y 1 1 + 1 <= (if is_leap y then 366 else 365).
Proof.
  unfold civil_from_days.
  set (z' := z + 719468).
  set (era := z' / 146097).
  set (doe := z' - era * 146097).
  assert (Hdoe : 0 <= doe < 146097) by (subst doe era; div_lia).
  pose proof (era_year_month doe Hdoe) as H. cbv zeta in H.
  set (yoe := (doe - doe / 1460 + doe / 36524 - doe / 146096) / 365) in *.
  set (doy := doe - (365 * yoe + yoe / 4 - yoe / 100)) in *.
  set (mp := (5 * doy + 2) / 153) in *.
  destruct H as (Hy & Hd & Hm).
  assert (Hz : z = era * 146097 + doe - 719468) by (subst doe z'; lia).
  unfold days_from_civil. cbn [Z.leb Z.gtb Z.compare Pos.compare Pos.compare_cont].
  destruct (Z.ltb_spec mp 10) as [Hlt|Hge].
  - replace (mp + 3 <=? 2) with false by decide_cmp.
    assert (Hdoy : doy <= 305) by (subst mp; div_lia).
    unfold is_leap.
    destruct (Z.eqb_spec ((yoe + era * 400) mod 4) 0) as [H4|H4];
    destruct (Z.eqb_spec ((yoe + era * 400) mod 100) 0) as [H100|H100];
    destruct (Z.eqb_spec ((yoe + era * 400) mod 400) 0) as [H400|H400];
    cbn [andb orb negb];
    (destruct (Z.eq_dec yoe 0) as [Hy0|Hy0];
     [ replace ((yoe + era * 400 - 1) / 400) with (era - 1) by div_lia
     | replace ((yoe + era * 400 - 1) / 400) with era by div_lia ];
     rewrite Hz; subst doy; div_lia).
  - replace (mp - 9 <=? 2) with true by decide_cmp.
    replace (yoe + era * 400 + 1 - 1) with (yoe + era * 400) by lia.
    replace ((yoe + era * 400) / 400) with era by div_lia.
    assert (Hdoy : 306 <= doy) by (subst mp; div_lia).
    assert (z - (era * 146097 + ((yoe + era * 400 - era * 400) * 365 + (yoe + era * 400 - era * 400) / 4 - (yoe + era * 400 - era * 400) / 100 + ((153 * (1 + 9) + 2) / 5 + 1 - 1)) - 719468) + 1 <= 60).
    { rewrite Hz. subst doy. div_lia. }
    destruct (is_leap (yoe + era * 400 + 1)); lia.
Qed.

Lemma week_of_year_range (y jan1 date : Z) :
  jan1 <= date -> date - jan1 + 1 <= (if is_leap y then 366 else 365) ->
  1 <= week_of_year y jan1 date <= 53.
Proof.
  intros Hlo Hhi. unfold week_of_year, getWeekNumber, first_day_of_week, minimal_days_in_first_week.
  pose proof (on_or_before_range (jan1 + 6) 1) as Hb.
  set (s := on_or_before (jan1 + 6) 1) in *.
  assert (Hs7 : (s + 4) mod 7 = 0).
  { subst s. unfold on_or_before, day_of_week0. div_lia. }
  destruct (is_leap y).
  - pose proof (on_or_before_range (jan1 + 366 + 6) 1) as Hb2.
    set (s2 := on_or_before (jan1 + 366 + 6) 1) in *.
    assert (Hs27 : (s2 + 4) mod 7 = 0).
    { subst s2. unfold on_or_before, day_of_week0. div_lia. }
    destruct (Z.geb_spec (s - jan1) 1);
      destruct (Z.eqb_spec ((date - (s - 7)) / 7 + 1) 0);
      destruct (Z.eqb_spec ((date - s) / 7 + 1) 0);
      destruct (Z.geb_spec ((date - (s - 7)) / 7 + 1) 52);
      destruct (Z.geb_spec ((date - s) / 7 + 1) 52);
      destruct (Z.geb_spec (s2 - (jan1 + 366)) 1);
      destruct (Z.geb_spec date (s2 - 7)); cbn [andb]; try div_lia.
  - pose proof (on_or_before_range (jan1 + 365 + 6) 1) as Hb2.
    set (s2 := on_or_before (jan1 + 365 + 6) 1) in *.
    assert (Hs27 : (s2 + 4) mod 7 = 0).
    { subst s2. unfold on_or_before, day_of_week0. div_lia. }
    destruct (Z.geb_spec (s - jan1) 1);
      destruct (Z.eqb_spec ((date - (s - 7)) / 7 + 1) 0);
      destruct (Z.eqb_spec ((date - s) / 7 + 1) 0);
      destruct (Z.geb_spec ((date - (s - 7)) / 7 + 1) 52);
      destruct (Z.geb_spec ((date - s) / 7 + 1) 52);
      destruct (Z.geb_spec (s2 - (jan1 + 365)) 1);
      destruct (Z.geb_spec date (s2 - 7)); cbn [andb]; try div_lia.
Qed.

Lemma fields_ranges (tz ms : Z) :
  let f := fields_of_millis tz ms in
  0 <= f_hour f <= 23
  /\ 1 <= f_day_of_year f <= 366
  /\ 1 <= f_week_of_year f <= 53
  /\ 1 <= f_month f <= 12
  /\ 1 <= f_week_of_month f <= 6.
Proof.
  unfold fields_of_millis.
  set (local := ms + tz * 1000).
  pose proof (civil_month_day (local / 86400000)) as Hmd.
  pose proof (day_of_year_range (local / 86400000)) as Hdoy.
  pose proof (day_of_year_leap (local / 86400000)) as Hleap.
  pose proof (days_from_civil_from_days (local / 86400000)) as Hrt.
  destruct (civil_from_days (local / 86400000)) as [[y m] d].
  cbn [f_hour f_day_of_year f_week_of_year f_month f_week_of_month].
  split; [div_lia|]. split; [exact Hdoy|].
  split; [apply week_of_year_range; lia|]. split; [tauto|].
  apply getWeekNumber_range. rewrite (days_from_civil_first y m d), Hrt. lia.
Qed.

End FieldRanges.

Lemma zero_pad_one (n : Z) : SimpleDateFormat.zero_pad 1 n = SimpleDateFormat.decimal n.
Proof.
  unfold SimpleDateFormat.zero_pad.
  assert (Hlen : String.length (SimpleDateFormat.decimal n) <> 0%nat).
  { unfold SimpleDateFormat.decimal.
    destruct (N.to_uint (Z.to_N n)); cbn; discriminate. }
  destruct (String.length (SimpleDateFormat.decimal n)) as [|k]; [contradiction|].
  reflexivity.
Qed.

(** X13. In every row of the time table the calendar fields are the
    unpadded decimals of numbers in their calendar ranges: hour 0..23, day
    (of the year) 1..366, week (of the year) 1..53, month 1..12, and
    weekday, being the week of the month, 1..6. *)
Theorem time_table_fields_in_range (tz : Z) (log t : DataFrame) (row : Row) :
  log_schema_ok log = true ->
  time_of tz log = Ok t ->
  row ∈ t ->
  exists h d w m wd,
    col "hour" row = VStr (SimpleDateFormat.decimal h) /\ 0 <= h <= 23
    /\ col "day" row = VStr (SimpleDateFormat.decimal d) /\ 1 <= d <= 366
    /\ col "week" row = VStr (SimpleDateFormat.decimal w) /\ 1 <= w <= 53
    /\ col "month" row = VStr (SimpleDateFormat.decimal m) /\ 1 <= m <= 12
    /\ col "weekday" row = VStr (SimpleDateFormat.decimal wd) /\ 1 <= wd <= 6.
Proof.
  intros Hschema Ht Hin. unfold time_of in Ht.
  destruct (with_start_time tz (next_song log)) as [events|] eqn:Hw; [|discriminate].
  injection Ht as <-.
  apply time_table_elem in Hin as (e & He & _ & HH & HD & Hwk & HM & _ & HW).
  destruct (event_has_start_time tz log events e Hschema Hw He) as (us & Hus & _).
  destruct (fields_ranges tz (us ÷ 1000)) as (Rh & Rd & Rw & Rm & Rwd).
  set (f := Calendar.fields_of_millis tz (us ÷ 1000)) in *.
  exists (Calendar.f_hour f), (Calendar.f_day_of_year f), (Calendar.f_week_of_year f),
         (Calendar.f_month f), (Calendar.f_week_of_month f).
  assert (Hfmt : forall (c : ascii) (v : Z),
             SimpleDateFormat.format_run f (c, 1%nat)
             = Some (SimpleDateFormat.zero_pad 1 v) ->
             date_format tz "start_time" (String c EmptyString) e
             = VStr (SimpleDateFormat.decimal v)).
  { intros c v Hrun. apply (date_format_timestamp tz us); [assumption|].
    fold f. rewrite <- zero_pad_one. now apply format_one_letter. }
  rewrite HH, HD, Hwk, HM, HW.
  repeat split; try assumption; try lia; apply Hfmt; reflexivity.
Qed.

Lemma time_table_fields_in_range_witness :
  exists h m,
    col "hour" Sample.time_row = VStr (SimpleDateFormat.decimal h) /\ 0 <= h <= 23
    /\ col "month" Sample.time_row = VStr (SimpleDateFormat.decimal m) /\ 1 <= m <= 12.
Proof.
  destruct (time_table_fields_in_range 0 Sample.log [Sample.time_row; Sample.time_row]
              Sample.time_row)
    as (h & d & w & m & wd & Hh & Rh & _ & _ & _ & _ & Hm & Rm & _).
  - reflexivity.
  - vm_compute. reflexivity.
  - apply list_elem_of_here.
  - exists h, m. auto.
Defined.

(** ** Datasets without records *)

Lemma songplays_table_empty (tz : Z) (layout : DataFrame -> list DataFrame)
    (events song_df : DataFrame) :
  lays_out layout ->
  songplays_joined tz events song_df = [] ->
  songplays_table tz layout events song_df = [].
Proof.
  intros Hlay Hj. pose proof (songplays_table_joined tz layout events song_df Hlay) as Hp.
  rewrite Hj in Hp. apply Permutation_nil_r in Hp.
  destruct (songplays_table tz layout events song_df); [reflexivity|discriminate].
Qed.

(** X14. Datasets without records.  The reader infers the columns from
    the records, so a dataset that holds none has no columns and the job
    fails at its first reference to one.  With a log without records,
    [main] fails at [df["page"]] right after loading it, before anything
    is written.  With song data without records, a log in order whose
    playback timestamps convert (machine in UTC) and nothing at the users
    and time locations, it fails at [song_df.title], after the users and
    time tables have been written, and writes no songplays, songs or
    artists table.  A log that has records but no playback event is no
    error: with datasets in order and nothing at the output locations the
    run completes, and the users, time and songplays tables it stores
    are empty. *)
Theorem datasets_without_records
    (tz : Z) (layout : DataFrame -> list DataFrame) (w : World) (log_st song_st : Stored) :
  files w !! log_path = Some log_st ->
  (content log_st = [] ->
     main tz layout w
     = (Err (Unresolved "page"),
        {| files := files w;
           leftovers := leftovers w;
           trace := trace w ++ [GetOrCreateSession; Load log_path] |}))
  /\ (forall events,
        files w !! song_path = Some song_st ->
        content song_st = [] ->
        log_in_order (content log_st) = true ->
        with_start_time 0 (next_song (content log_st)) = Ok events ->
        path_exists (files w) (leftovers w) users_out = false ->
        path_exists (files w) (leftovers w) time_out = false ->
        main 0 layout w
        = (Err (AttributeError "'DataFrame' object has no attribute 'title'"),
           {| files := <[time_out := mkStored [] (time_table 0 events)]>
                         (<[users_out := mkStored [] (users_of (content log_st))]>
                            (files w));
              leftovers := leftovers w;
              trace := trace w ++ [GetOrCreateSession; Load log_path; Save users_out [];
                                   Save time_out []; Load song_path] |}))
  /\ (lays_out layout ->
      files w !! song_path = Some song_st ->
      datasets_in_order (content log_st) (content song_st) = true ->
      outputs_absent w ->
      next_song (content log_st) = [] ->
      main tz layout w
      = (Ok tt,
         {| files := store_tables tz layout (content log_st) (content song_st) [] (files w);
            leftovers := leftovers w;
            trace := trace w ++ run_events |})
      /\ users_of (content log_st) = []
      /\ time_table tz [] = []
      /\ songplays_table tz layout [] (content song_st) = []).
Proof.
  intros Hlog. split; [|split].
  - intros Hempty. start_main. step_load. rewrite Hlog. cbn [fst snd].
    rewrite Hempty. cbn. rewrite <- !app_assoc. reflexivity.
  - intros events Hsong Hempty Hl Hev Hu Ht. apply log_in_order_resolves in Hl.
    destruct (log_columns_resolve_each _ Hl) as (C1 & C2 & C3 & C4 & C5).
    start_main. step_load. rewrite Hlog. cbn [fst snd].
    rewrite C1, C2. cbn [lift ret].
    step_save. rewrite Hu.
    rewrite C3, C4. cbn [lift ret].
    step_save. rewrite Ht. rewrite Hev. cbn [rmap].
    step_load. rewrite Hsong.
    rewrite C5. cbn [lift ret]. rewrite Hempty.
    change (getattr (columns []) "title")
      with (@Err unit (AttributeError "'DataFrame' object has no attribute 'title'")).
    cbn [lift raise fst snd]. rewrite <- !app_assoc. reflexivity.
  - intros Hlay Hsong Hcols Hout Hnone. apply datasets_in_order_resolve in Hcols.
    assert (Hev : with_start_time tz (next_song (content log_st)) = Ok [])
      by (rewrite Hnone; reflexivity).
    split; [now apply main_success_run|].
    split; [unfold users_of; now rewrite Hnone|].
    split; [reflexivity|]. now apply songplays_table_empty.
Qed.

Lemma datasets_without_records_witness :
  fst (main 0 Sample.one_partition Sample.world_empty_log) = Err (Unresolved "page")
  /\ fst (main 0 Sample.one_partition Sample.world_empty_songs)
     = Err (AttributeError "'DataFrame' object has no attribute 'title'")
  /\ fst (main 0 Sample.one_partition Sample.world_no_play) = Ok tt
  /\ (content <$> files (snd (main 0 Sample.one_partition Sample.world_no_play)) !! users_out)
     = Some [].
Proof.
  split; [|split].
  - rewrite (proj1 (datasets_without_records 0 Sample.one_partition Sample.world_empty_log
                      (mkStored [] []) (mkStored [] Sample.songs) eq_refl) eq_refl).
    reflexivity.
  - destruct (with_start_time 0 (next_song Sample.log)) as [events|] eqn:Hev;
      [|vm_compute in Hev; discriminate Hev].
    assert (Hord : log_in_order Sample.log = true) by (vm_compute; reflexivity).
    rewrite (proj1 (proj2 (datasets_without_records 0 Sample.one_partition
                             Sample.world_empty_songs (mkStored [] Sample.log)
                             (mkStored [] []) eq_refl))
               events eq_refl eq_refl Hord Hev eq_refl eq_refl).
    reflexivity.
  - assert (Habsent : outputs_absent Sample.world_no_play).
    { intros p Hp. unfold output_paths in Hp.
      repeat (apply elem_of_cons in Hp as [->|Hp]; [vm_compute; reflexivity|]).
      inversion Hp. }
    assert (Hord : datasets_in_order [Sample.visit] Sample.songs = true)
      by (vm_compute; reflexivity).
    destruct (proj2 (proj2 (datasets_without_records 0 Sample.one_partition
                              Sample.world_no_play (mkStored [] [Sample.visit])
                              (mkStored [] Sample.songs) eq_refl))
                one_partition_lays_out eq_refl Hord Habsent eq_refl)
      as (Hrun & Hu & _).
    rewrite Hrun. split; [reflexivity|].
    cbn [snd files]. unfold store_tables.
    rewrite !lookup_insert_ne by (apply String.eqb_neq; reflexivity).
    rewrite lookup_insert_eq. cbn [fmap option_fmap option_map content] in Hu |- *.
    now rewrite Hu.
Defined.

(** X15. The users table invents nothing: each of its rows is the
    projection, on the five user columns, of a playback record of the
    log, so the level it shows for a user is the level of one of that
    user's playback events. *)
Theorem users_come_from_playback_records (log : DataFrame) (row : Row) :
  row ∈ users_of log ->
  exists r,
    r ∈ log /\ col "page" r = VStr "NextSong"
    /\ row = eval_row (List.map named user_columns) r
    /\ col "userId" row = col "userId" r
    /\ col "level" row = col "level" r
    /\ col "userId" r <> VNull.
Proof.
  intros Hin. apply keyed_table_elem in Hin as (r & Hr & -> & Hnn).
  apply next_song_elem in Hr as [Hr Hp].
  assert (Hu : "userId" ∈ user_columns) by (apply list_elem_of_In; cbn; auto).
  assert (Hl : "level" ∈ user_columns) by (apply list_elem_of_In; cbn; auto 10).
  rewrite (col_eval_row_named _ _ _ Hu) in Hnn.
  exists r. rewrite (col_eval_row_named _ _ _ Hu), (col_eval_row_named _ _ _ Hl). auto 10.
Qed.

Lemma users_come_from_playback_records_witness :
  exists r, r ∈ Sample.log /\ col "page" r = VStr "NextSong"
            /\ col "level" r = VStr "paid".
Proof.
  destruct (users_come_from_playback_records Sample.log
              (eval_row (List.map named user_columns) Sample.play))
    as (r & Hr & Hp & _ & _ & Hl & _).
  - vm_compute. apply list_elem_of_here.
  - exists r. split; [assumption|]. split; [assumption|]. now rewrite <- Hl.
Defined.
